(** * bcl2fastq applets: bases mask, sample sheet and fastq naming

    A shallow embedding of the rule-governed parts of the two DNAnexus
    applets [scgpm_bcl2fastq/src/code.py] and
    [bcl2fastq2_by_lane/src/bcl2fastq2_by_lane.py] (Python 2), with the
    properties their design document states about them.

    Conventions of the embedding:
    - a Python [int] is a [Z], a [str] is a [string], a [dict] is a [gmap],
      a set is a [gset];
    - a call that may raise returns a [result]; [sys.exit()] is the
      exception [SystemExit], which is what the design document calls a
      ConfigurationError (or FormatError in the output classifier) when it
      follows a [logger.error];
    - the process-global [logger] is a collaborator outside this model: its
      calls return [None] and touch nothing the functions read, so they are
      left out, except where control flow depends on their return value;
    - objects the code mutates in place (the barcode list, the list bound
      to a default argument, the sample sheet file) are passed in and
      returned explicitly. *)

From stdpp Require Import base numbers list strings pretty gmap sorting.
From Equations Require Import Equations.
From Equations.Prop Require Import Logic.
From Stdlib Require Import Ascii.

Open Scope string_scope.
Open Scope list_scope.
Open Scope Z_scope.

(** ** Python values and exceptions *)

Inductive exn : Set :=
| SystemExit
| TypeError
| IndexError
| UnboundLocalError
| AttributeError.

Inductive result (A : Type) : Type :=
| Ok (a : A)
| Raise (e : exn).
Arguments Ok {A} a.
Arguments Raise {A} e.

Global Instance result_ret : MRet result := λ A a, Ok a.
Global Instance result_bind : MBind result := λ A B f m,
  match m with
  | Ok a => f a
  | Raise e => Raise e
  end.

Global Instance exn_eq_dec : EqDecision exn.
Proof. solve_decision. Defined.
Global Instance result_eq_dec `{EqDecision A} : EqDecision (result A).
Proof. solve_decision. Defined.

(** A local variable of a Python function is unbound until its first
    assignment; reading it before raises [UnboundLocalError]. *)
Definition read_local {A} (x : option A) : result A :=
  match x with
  | Some a => Ok a
  | None => Raise UnboundLocalError
  end.

(** [l[i]] for a list and a constant index [i >= 0]. *)
Definition item {A} (l : list A) (i : nat) : result A :=
  match l !! i with
  | Some a => Ok a
  | None => Raise IndexError
  end.

(** ** Strings *)

(** [s.split(sep)] for a one-character separator: never the empty list,
    empty fields are kept. *)
Fixpoint split (sep : ascii) (s : string) : list string :=
  match s with
  | EmptyString => [EmptyString]
  | String c s' =>
      if decide (c = sep) then EmptyString :: split sep s'
      else match split sep s' with
           | [] => [String c EmptyString]
           | field :: fields => String c field :: fields
           end
  end.

(** [s[:n]] for [n >= 0]. *)
Fixpoint take_str (n : nat) (s : string) : string :=
  match n, s with
  | S n', String c s' => String c (take_str n' s')
  | _, _ => EmptyString
  end.

(** The line feed, ['\n']. *)
Definition nl : string := String "010" EmptyString.

(** [s.upper()] on a byte string: the letters a-z only. *)
Definition upper_ascii (c : ascii) : ascii :=
  let n := nat_of_ascii c in
  if decide (97 ≤ n ≤ 122)%nat then ascii_of_nat (n - 32) else c.

Fixpoint upper (s : string) : string :=
  match s with
  | EmptyString => EmptyString
  | String c s' => String (upper_ascii c) (upper s')
  end.

(** [line.split()]: the maximal runs of non-whitespace characters. *)
Definition split_whitespace (line : string) : list string :=
  String.words line.

(** [os.path.basename(path)]: what follows the last slash. *)
Definition basename (path : string) : string :=
  default "" (last (split "/" path)).

(** [re.match(r'R(\d)', read)], as the digit captured by group 1. *)
Definition match_read_index (read : string) : option ascii :=
  match read with
  | String "R" (String d _) =>
      match Ascii.is_nat d with
      | Some _ => Some d
      | None => None
      end
  | _ => None
  end.

(** [int(read_index)] for the one-digit string of group 1. *)
Definition int_of_digit (d : ascii) : Z :=
  default 0 (Z.of_nat <$> Ascii.is_nat d).

(** [needle in s]. *)
Fixpoint contains (needle s : string) : bool :=
  String.prefix needle s ||
  match s with
  | EmptyString => false
  | String _ s' => contains needle s'
  end.

(** [s.split(sep)[0]] for a separator of any length: what precedes the
    first occurrence of [sep], all of [s] when there is none. *)
Fixpoint before_first (sep s : string) : string :=
  if String.prefix sep s then EmptyString
  else match s with
       | EmptyString => EmptyString
       | String c s' => String c (before_first sep s')
       end.

(** [s.rstrip()]: [s] without its trailing whitespace. *)
Fixpoint rstrip (s : string) : string :=
  match s with
  | EmptyString => EmptyString
  | String c s' =>
      match rstrip s' with
      | EmptyString =>
          if Ascii.is_space c then EmptyString else String c EmptyString
      | stripped => String c stripped
      end
  end.

(** The class [a-zA-Z0-9] of a regular expression over byte strings. *)
Definition is_alnum (c : ascii) : bool :=
  let n := nat_of_ascii c in
  bool_decide (48 ≤ n ≤ 57 ∨ 65 ≤ n ≤ 90 ∨ 97 ≤ n ≤ 122)%nat.

(** [re.sub(r"[^a-zA-Z0-9]+", "-", s)]: every maximal run of characters
    outside the class becomes one hyphen. [in_run] tells that the
    character before belongs to a run already replaced. *)
Fixpoint sub_non_alnum (in_run : bool) (s : string) : string :=
  match s with
  | EmptyString => EmptyString
  | String c s' =>
      if is_alnum c then String c (sub_non_alnum false s')
      else if in_run then sub_non_alnum true s'
      else String "-" (sub_non_alnum true s')
  end.

(** [sep.join(l)]. *)
Fixpoint join (sep : string) (l : list string) : string :=
  match l with
  | [] => ""
  | [x] => x
  | x :: l' => x +:+ sep +:+ join sep l'
  end.

(** [len(s)]. *)
Definition len (s : string) : Z := Z.of_nat (String.length s).

(** The objects that reach an index-length list: the pairs
    [(i7_length, i5_length)] appended by the traversal of the barcodes, the
    two integers of the literal [(0,0)], and [None], which the set
    comprehension filters out. *)
Inductive pyobj : Set :=
| PyNone
| PyInt (z : Z)
| PyTuple (items : list Z).

Global Instance pyobj_eq_dec : EqDecision pyobj.
Proof. solve_decision. Defined.

Global Instance pyobj_countable : Countable pyobj :=
  inj_countable'
    (λ o, match o with
          | PyNone => inl ()
          | PyInt z => inr (inl z)
          | PyTuple items => inr (inr items)
          end)
    (λ c, match c with
          | inl _ => PyNone
          | inr (inl z) => PyInt z
          | inr (inr items) => PyTuple items
          end)
    (λ o, match o with
          | PyNone => eq_refl
          | PyInt _ => eq_refl
          | PyTuple _ => eq_refl
          end).

(** [int(o[i])]: a tuple is indexed from the end by a negative [i],
    anything outside [-len, len) raises [IndexError]; an [int] or [None]
    has no [__getitem__]. *)
Definition getitem (o : pyobj) (i : Z) : result Z :=
  match o with
  | PyTuple items =>
      let n := Z.of_nat (length items) in
      let j := if decide (i < 0) then i + n else i in
      if decide (0 ≤ j < n) then item items (Z.to_nat j)
      else Raise IndexError
  | PyInt _ | PyNone => Raise TypeError
  end.

(** [barcodes.pop()]: the last element, removed from the list. *)
Definition pop {A} (l : list A) : option (list A * A) :=
  match last l with
  | Some x => Some (removelast l, x)
  | None => None
  end.

(** A [for] loop whose body may raise. *)
Fixpoint for_in {A S} (l : list A) (body : S → A → result S) (s : S)
    : result S :=
  match l with
  | [] => Ok s
  | x :: l' => s' ← body s x; for_in l' body s'
  end.

(** ** The run geometry *)

(** One [<Read Number=.. NumCycles=.. IsIndexedRead=.. />] element of
    RunInfo.xml, in the order [tree.findall(".//Read")] yields them, with
    the two numeric attributes already through [int(..)]. *)
Record Read : Set := {
  Number : Z;
  NumCycles : Z;
  IsIndexedRead : string;
}.

(** [sorted(mask_elements.items())]: the keys of a dict are distinct, so
    the order of the pairs is the order of their keys. *)
Definition key_le (a b : Z * string) : Prop := a.1 ≤ b.1.
Global Instance key_le_dec : RelDecision key_le.
Proof. intros a b. unfold key_le. apply _. Defined.
Global Instance key_le_transitive : Transitive key_le.
Proof. intros a b c. unfold key_le. lia. Qed.

Definition sorted_items (d : gmap Z string) : list (Z * string) :=
  merge_sort key_le (map_to_list d).

(** What an outer call of [_count_index_lengths] leaves behind: the
    caller's barcode list, the accumulator list (the object bound to the
    default argument when none is passed), and the value returned, which on
    normal return is that same accumulator object. *)
Record counted : Type := Counted {
  barcodes_after : list string;
  index_lengths_after : list pyobj;
  returned : result (list pyobj);
}.

Module scgpm_bcl2fastq.

(** [truncate_flowcell_id(flowcell_id)], code.py lines 151-173. *)
Definition truncate_flowcell_id (flowcell_id : string) : result string :=
  let elements := split "-" flowcell_id in
  trunc_flowcell_id ←
    (if decide (length elements = 2%nat) then
       e ← item elements 1; Ok (Some (take_str 5 e))
     else if decide (length elements = 1%nat) then
       e ← item elements 0; Ok (Some (take_str 5 e))
     else Ok None);
  read_local trunc_flowcell_id.

(** Lines 405-416 of [_get_use_bases_mask]: the set of the entries that
    are not [None], as a list. *)
Definition unique_index_lengths (index_lengths_list : list pyobj)
    : list pyobj :=
  let index_lengths_set : gset pyobj :=
    list_to_set (filter (λ index_length, index_length ≠ PyNone)
                        index_lengths_list) in
  elements index_lengths_set.

(** The body of the loop over the reads, lines 421-447. *)
Definition read_mask (index_lengths : pyobj)
    (mask_elements : gmap Z string) (read_element : Read)
    : result (gmap Z string) :=
  let number := Number read_element in
  let read_length := NumCycles read_element in
  let is_indexed := IsIndexedRead read_element in
  if decide (is_indexed = "Y") then
    index_length ← getitem index_lengths (number - 2);
    let index_mask :=
      if decide (index_length > 0) then "I" +:+ pretty index_length
      else "" in
    n_mask ←
      (if decide (read_length - index_length > 0) then
         Ok ("n" +:+ pretty (read_length - index_length))
       else if decide (read_length - index_length < 0) then
         Raise SystemExit
       else Ok "");
    Ok (<[number := index_mask +:+ n_mask]> mask_elements)
  else if decide (is_indexed = "N") then
    Ok (<[number := "y" +:+ pretty read_length]> mask_elements)
  else Ok mask_elements.

(** Lines 412-416: the one pair every barcode agrees on, or the exit
    after "Inconsistent index lengths". *)
Definition single_index_lengths (index_lengths_list : list pyobj)
    : result pyobj :=
  let unique_index_lengths := unique_index_lengths index_lengths_list in
  if decide (length unique_index_lengths ≠ 1%nat) then Raise SystemExit
  else item unique_index_lengths 0.

(** [GetUseBasesMaskJob._get_use_bases_mask], lines 393-451. *)
Definition _get_use_bases_mask (run_info_file : list Read)
    (index_lengths_list : list pyobj) : result string :=
  index_lengths ← single_index_lengths index_lengths_list;
  mask_elements ← for_in run_info_file (read_mask index_lengths) ∅;
  let sorted_mask_elements := (sorted_items mask_elements).*2 in
  Ok (join "," sorted_mask_elements).

(** Lines 473-482 of [_count_index_lengths]: the pair appended for one
    barcode. With more than two indexes the code evaluates
    [logger.error('..').format(barcode)]; [logger.error] returns [None],
    so the attribute lookup raises before [sys.exit()] is reached. *)
Definition barcode_index_lengths (barcode : string) : result pyobj :=
  let elements := split "-" barcode in
  e0 ← item elements 0;
  let i7_length := len e0 in
  i5_length ←
    (if decide (length elements = 2%nat) then
       e1 ← item elements 1; Ok (len e1)
     else if decide (2 < length elements)%nat then Raise AttributeError
     else Ok 0);
  Ok (PyTuple [i7_length; i5_length]).

(** [GetUseBasesMaskJob._count_index_lengths], lines 453-483. The bare
    [except:] ends the recursion when [pop] finds the list empty. The
    depth the interpreter allows a recursion is not modelled. *)
Equations? _count_index_lengths (barcodes : list string)
    (index_lengths : list pyobj) : counted
    by wf (length barcodes) lt :=
  _count_index_lengths barcodes index_lengths with inspect (pop barcodes) := {
    | exist _ None _ :=
        Counted barcodes index_lengths (Ok index_lengths)
    | exist _ (Some (rest, barcode)) Hpop
        with barcode_index_lengths barcode := {
        | Ok lengths := _count_index_lengths rest (index_lengths ++ [lengths])
        | Raise e := Counted rest index_lengths (Raise e) } }.
Proof.
  unfold pop in Hpop. destruct (last barcodes) eqn:Hlast; [|done].
  injection Hpop as <- <-. apply last_Some in Hlast as [l' ->].
  rewrite removelast_last, length_app. simpl. lia.
Qed.

(** [GetUseBasesMaskJob.run], lines 485-505. [default_index_lengths] is
    the list object bound to the default argument of
    [_count_index_lengths], empty when the module is loaded and shared by
    every call that passes no accumulator. *)
Definition run (barcodes_list : list string)
    (default_index_lengths : list pyobj) (run_info_file : list Read)
    : list string * list pyobj * result string :=
  if decide (length barcodes_list = 0%nat) then
    let index_lengths := [PyInt 0; PyInt 0] in
    (barcodes_list, default_index_lengths,
     _get_use_bases_mask run_info_file index_lengths)
  else
    let c := _count_index_lengths barcodes_list default_index_lengths in
    (barcodes_after c, index_lengths_after c,
     index_lengths ← returned c;
     _get_use_bases_mask run_info_file index_lengths).

(** The attributes of a [Bcl2fastqJob]. *)
Record Bcl2fastqJob : Set := {
  run_name : string;
  lane_index : Z;
}.

(** The objects [create_sample_sheet] works on while it reads the barcode
    file: the text written to [SHEET], the dict, and the two locals that
    keep their value from one line to the next. [i5] is unbound, [None] or
    a string; [sample_id] is unbound or a string. *)
Record sheet_locals : Set := {
  SHEET : string;
  barcode_sample_dict : gmap string (option string);
  i5 : option (option string);
  sample_id : option string;
}.

(** [if i5:] for [None] or a string. *)
Definition truthy (i5 : option string) : bool :=
  match i5 with
  | Some (String _ _) => true
  | _ => false
  end.

(** The body of the loop over the lines, lines 313-346. With more than
    two indexes the code logs twice and assigns nothing to [i5]; with
    neither one nor two elements on the line it assigns nothing to
    [sample_id]. *)
Definition sheet_line (self : Bcl2fastqJob) (st : sheet_locals)
    (line : string) : result sheet_locals :=
  let elements := split_whitespace line in
  e0 ← item elements 0;
  let barcode := upper e0 in
  let indexes := split "-" barcode in
  i7 ← item indexes 0;
  i5 ←
    (if decide (length indexes = 2%nat) then
       e1 ← item indexes 1; Ok (Some (Some e1))
     else if decide (2 < length indexes)%nat then Ok (i5 st)
     else Ok (Some None));
  '(sample_id, barcode_sample_dict) ←
    (if decide (length elements = 2%nat) then
       e1 ← item elements 1;
       Ok (Some e1, <[barcode := Some e1]> (barcode_sample_dict st))
     else if decide (length elements = 1%nat) then
       Ok (Some barcode, <[barcode := None]> (barcode_sample_dict st))
     else Ok (sample_id st, barcode_sample_dict st));
  i5_value ← read_local i5;
  sample_id_value ← read_local sample_id;
  let row :=
    if truthy i5_value then
      pretty (lane_index self) +:+ "," +:+ sample_id_value +:+ "," +:+ i7
        +:+ "," +:+ default "" i5_value +:+ nl
    else
      pretty (lane_index self) +:+ "," +:+ sample_id_value +:+ "," +:+ i7
        +:+ ",," +:+ nl in
  Ok {| SHEET := SHEET st +:+ row;
        barcode_sample_dict := barcode_sample_dict;
        i5 := i5;
        sample_id := sample_id |}.

(** The loop itself: when a line raises, what was written so far stays in
    the file and the exception leaves the function. *)
Fixpoint sheet_lines (self : Bcl2fastqJob) (st : sheet_locals)
    (lines : list string) : string * result sheet_locals :=
  match lines with
  | [] => (SHEET st, Ok st)
  | line :: lines' =>
      match sheet_line self st line with
      | Ok st' => sheet_lines self st' lines'
      | Raise e => (SHEET st, Raise e)
      end
  end.

(** [Bcl2fastqJob.create_sample_sheet], lines 281-349. [barcodes_file] is
    the file as the [for line in CODES] loop sees it. The result is the
    text of the sample sheet file and the value returned. *)
Definition create_sample_sheet (self : Bcl2fastqJob)
    (barcodes_file : list string)
    : string * result (string * gmap string (option string)) :=
  let sample_sheet :=
    run_name self +:+ "-L" +:+ pretty (lane_index self)
      +:+ "-samplesheet.csv" in
  let st := {| SHEET := "[Data]" +:+ nl +:+ "Lane,Sample_ID,index,index2" +:+ nl;
               barcode_sample_dict := ∅;
               i5 := None;
               sample_id := None |} in
  let '(sheet, r) := sheet_lines self st barcodes_file in
  (sheet, st' ← r; Ok (sample_sheet, barcode_sample_dict st')).

(** [d.keys()] of a Python 2 dict: the keys, each once, in an order the
    program does not choose. *)
Definition keys {V} (d : gmap string V) : list string :=
  (map_to_list d).*1.

(** [Bcl2fastqFileUploader._get_scgpm_fastq_name], lines 674-721. The
    first component is what the [print] statement wrote. *)
Definition _get_scgpm_fastq_name (fastq_path flowcell_id library_name : string)
    (lane_index : Z) : list string * result (string * string * string) :=
  let fastq_filename := basename fastq_path in
  let elements := split "_" fastq_filename in
  if decide (length elements < 5 ∨ 6 < length elements)%nat then
    ([], Raise SystemExit)
  else
    let locals : result (option (string * string)) :=
      if decide (length elements = 6%nat) then
        e0 ← item elements 0;
        e1 ← item elements 1;
        e4 ← item elements 4;
        Ok (Some (e0 +:+ "-" +:+ e1, e4))
      else if decide (length elements = 5%nat) then
        e0 ← item elements 0;
        e3 ← item elements 3;
        Ok (Some (e0, e3))
      else Ok None in
    match locals ≫= read_local with
    | Raise e => ([], Raise e)
    | Ok (barcode, read) =>
        let read_index_match := match_read_index read in
        let stdout :=
          match read_index_match with
          | Some _ => []
          | None => ["Could not determine read index: " +:+ read]
          end in
        (stdout,
         trunc_flowcell_id ← truncate_flowcell_id flowcell_id;
         d ← read_local read_index_match;
         let read_index := String d EmptyString in
         let scgpm_name :=
           "SCGPM_" +:+ library_name +:+ "_" +:+ trunc_flowcell_id
             +:+ "_L" +:+ pretty lane_index +:+ "_" +:+ barcode
             +:+ "_R" +:+ pretty (int_of_digit d) +:+ ".fastq.gz" in
         Ok (scgpm_name, barcode, read_index))
    end.

(** [format_library_name(library_name)], lines 242-257. *)
Definition format_library_name (library_name : string) : string :=
  let stripped_name := rstrip (before_first "rcvd" library_name) in
  let formatted_name := sub_non_alnum false stripped_name in
  formatted_name.

End scgpm_bcl2fastq.

Module bcl2fastq2_by_lane.

(** The body of the loop over the reads, bcl2fastq2_by_lane.py lines
    398-424. *)
Definition read_mask (index_lengths : pyobj)
    (mask_elements : gmap Z string) (read_element : Read)
    : result (gmap Z string) :=
  let number := Number read_element in
  let read_length := NumCycles read_element in
  let is_indexed := IsIndexedRead read_element in
  if decide (is_indexed = "Y") then
    index_length ← getitem index_lengths (number - 2);
    let index_mask := "I" +:+ pretty index_length in
    n_mask ←
      (if decide (read_length - index_length > 0) then
         Ok ("n" +:+ pretty (read_length - index_length))
       else if decide (read_length - index_length < 0) then
         Raise SystemExit
       else Ok "");
    Ok (<[number := index_mask +:+ n_mask]> mask_elements)
  else if decide (is_indexed = "N") then
    Ok (<[number := "y" +:+ pretty read_length]> mask_elements)
  else Ok mask_elements.

(** [GetUseBasesMaskJob.get_use_bases_mask], lines 381-428; lines 383-394
    are those of the other applet. *)
Definition get_use_bases_mask (run_info_file : list Read)
    (index_lengths_list : list pyobj) : result string :=
  index_lengths ←
    scgpm_bcl2fastq.single_index_lengths index_lengths_list;
  mask_elements ← for_in run_info_file (read_mask index_lengths) ∅;
  let sorted_mask_elements := (sorted_items mask_elements).*2 in
  Ok (join "," sorted_mask_elements).

End bcl2fastq2_by_lane.

Import scgpm_bcl2fastq.

(** ** Barcodes of the data model *)

(** The index lengths of a barcode token [I7] or [I7-I5] as the design
    document counts them: the length of what precedes the first '-', and
    the length of what follows it, 0 for a token without i5. *)
Definition i7_length (barcode : string) : Z :=
  len (default "" (head (split "-" barcode))).

Definition i5_length (barcode : string) : Z :=
  match split "-" barcode with
  | [_; i5] => len i5
  | _ => 0
  end.

(** ** Two run geometries *)

(** The run of the design document: a paired-end run with one index
    read. *)
Definition single_index_run : list Read :=
  [ {| Number := 1; NumCycles := 151; IsIndexedRead := "N" |};
    {| Number := 2; NumCycles := 8; IsIndexedRead := "Y" |};
    {| Number := 3; NumCycles := 151; IsIndexedRead := "N" |} ].

(** A paired-end run with two index reads of eight cycles. *)
Definition dual_index_run : list Read :=
  [ {| Number := 1; NumCycles := 151; IsIndexedRead := "N" |};
    {| Number := 2; NumCycles := 8; IsIndexedRead := "Y" |};
    {| Number := 3; NumCycles := 8; IsIndexedRead := "Y" |};
    {| Number := 4; NumCycles := 151; IsIndexedRead := "N" |} ].

(** * Properties *)

(** ** Strings *)

Lemma split_nonempty sep s : split sep s ≠ [].
Proof.
  destruct s as [|c s]; simpl; [done|].
  case_decide; [done|]. by destruct (split sep s).
Qed.

Lemma take_str_length n s :
  String.length (take_str n s) = (n `min` String.length s)%nat.
Proof.
  revert s. induction n as [|n IH]; intros [|c s]; simpl; auto.
Qed.

Lemma take_str_prefix n s : String.prefix (take_str n s) s = true.
Proof.
  revert s. induction n as [|n IH]; intros [|c s]; simpl; auto.
  destruct (Ascii.ascii_dec c c); [apply IH|done].
Qed.

(** ** Flowcell identifiers *)

Lemma truncate_flowcell_id_cases flowcell_id :
  truncate_flowcell_id flowcell_id =
    match split "-" flowcell_id with
    | [_; second] => Ok (take_str 5 second)
    | [first] => Ok (take_str 5 first)
    | _ => Raise UnboundLocalError
    end.
Proof.
  unfold truncate_flowcell_id.
  pose proof (split_nonempty "-" flowcell_id) as Hne.
  destruct (split "-" flowcell_id) as [|a [|b [|c l]]]; done.
Qed.

(** C9. Splitting the flowcell id on '-': with exactly two segments the
    result is the first five characters of the second, with exactly one
    segment the first five characters of it, and with any other number of
    segments the call raises and returns no identifier at all. The two
    identifiers of the docstring truncate to HFNKG and AMG8G. *)
Theorem truncate_flowcell_id_by_segments (flowcell_id : string) :
  truncate_flowcell_id flowcell_id =
    match split "-" flowcell_id with
    | [_; second] => Ok (take_str 5 second)
    | [first] => Ok (take_str 5 first)
    | _ => Raise UnboundLocalError
    end
  ∧ truncate_flowcell_id "000000000-AMG8G" = Ok "AMG8G"
  ∧ truncate_flowcell_id "HFNKGBBXX" = Ok "HFNKG".
Proof. split; [apply truncate_flowcell_id_cases|done]. Qed.

(** ** Output classifier *)

(** C5. The dual-barcode file name of the code comment, with flowcell
    HFNKGBBXX, library MyLib and lane 1: six segments, the barcode is
    segment 0 and segment 1 joined by '-', the read index is the digit of
    segment 4, and the new name carries the library, the truncated
    flowcell id, the lane, the barcode and the read. Nothing is printed. *)
Theorem dual_barcode_fastq_name :
  let fastq_path := "TCTCGCGC_TCAGAGCC_S47_L001_R2_001.fastq.gz" in
  let scgpm_name := "SCGPM_MyLib_HFNKG_L1_TCTCGCGC-TCAGAGCC_R2.fastq.gz" in
  split "_" (basename fastq_path)
    = ["TCTCGCGC"; "TCAGAGCC"; "S47"; "L001"; "R2"; "001.fastq.gz"]
  ∧ _get_scgpm_fastq_name fastq_path "HFNKGBBXX" "MyLib" 1
    = ([], Ok (scgpm_name, "TCTCGCGC" +:+ "-" +:+ "TCAGAGCC", "2"))
  ∧ match_read_index "R2" = Some "2"%char
  ∧ int_of_digit "2" = 2
  ∧ forallb (λ part, contains part scgpm_name)
      ["MyLib"; "HFNKG"; "L1"; "TCTCGCGC-TCAGAGCC"; "R2"] = true.
Proof. repeat split; vm_compute; reflexivity. Qed.

(** A read segment that does not start with R and a digit: the message is
    printed, [read_index] stays unbound, and building the new name raises
    when it evaluates [int(read_index)] (or earlier, in the truncation of
    the flowcell id, with the same exception). *)
Lemma unmatched_read_index_raises fastq_path flowcell_id library_name
    lane_index barcode read :
  (∃ e0 e1 e2 e3 e5, split "_" (basename fastq_path) = [e0; e1; e2; e3; read; e5]
     ∧ barcode = e0 +:+ "-" +:+ e1)
  ∨ (∃ e1 e2 e4, split "_" (basename fastq_path) = [barcode; e1; e2; read; e4]) →
  match_read_index read = None →
  _get_scgpm_fastq_name fastq_path flowcell_id library_name lane_index
    = (["Could not determine read index: " +:+ read], Raise UnboundLocalError).
Proof.
  intros Hshape Hread. unfold _get_scgpm_fastq_name.
  destruct Hshape as [(e0&e1&e2&e3&e5&->&->)|(e1&e2&e4&->)]; simpl;
    rewrite Hread; f_equal;
    rewrite truncate_flowcell_id_cases;
    by destruct (split "-" flowcell_id) as [|a [|b [|c l]]].
Qed.

(** C6. An index-read file, as bcl2fastq writes with
    create-fastq-for-index-reads: the read segment I1 does not match, the
    message is printed, and the classification of the file then stops with
    an exception instead of going on. A name with four segments is
    rejected by the segment count before anything is printed. *)
Theorem index_read_fastq_name_raises :
  _get_scgpm_fastq_name "TCAGAGCC_S47_L001_I1_001.fastq.gz" "HFNKGBBXX"
      "MyLib" 1
    = (["Could not determine read index: I1"], Raise UnboundLocalError)
  ∧ _get_scgpm_fastq_name "S47_L001_R1_001.fastq.gz" "HFNKGBBXX" "MyLib" 1
    = ([], Raise SystemExit).
Proof. split; vm_compute; reflexivity. Qed.

(** ** Sample sheet *)

(** C3. A barcode file with one single-index and one dual-index line:
    the sheet is the two header lines and one row per line, in order; the
    dual-index row has the four fields of the header, the single-index row
    ends in two commas and so has five. *)
Theorem single_index_row_has_five_fields :
  let self := {| run_name := "run"; lane_index := 1 |} in
  let barcodes_file := ["ATCGG SampleA" +:+ nl; "GCTCA-TTAGG SampleB" +:+ nl] in
  let rows := split "010" (create_sample_sheet self barcodes_file).1 in
  rows = ["[Data]"; "Lane,Sample_ID,index,index2";
          "1,SampleA,ATCGG,,"; "1,SampleB,GCTCA,TTAGG"; ""]
  ∧ (λ row, length (split "," row)) <$> rows = [1; 4; 5; 4; 1]%nat.
Proof. split; vm_compute; reflexivity. Qed.

(** C7. A barcode with three indexes on the second line of the file: the
    sample sheet gets a row for it, with the i5 of the line before, and
    the dict gets an entry for it. On the first line the same barcode
    stops the function with [i5] unbound. The traversal that counts the
    index lengths does stop at such a barcode, with the attribute error
    of [None.format], and appends no pair for it. *)
Theorem three_index_barcode_gets_a_row :
  let self := {| run_name := "run"; lane_index := 1 |} in
  create_sample_sheet self ["AAAA-CCCC s1" +:+ nl; "GG-TT-AA s2" +:+ nl]
    = ("[Data]" +:+ nl +:+ "Lane,Sample_ID,index,index2" +:+ nl
         +:+ "1,s1,AAAA,CCCC" +:+ nl +:+ "1,s2,GG,CCCC" +:+ nl,
       Ok ("run-L1-samplesheet.csv",
           <["GG-TT-AA" := Some "s2"]> (<["AAAA-CCCC" := Some "s1"]> ∅)))
  ∧ create_sample_sheet self ["GG-TT-AA s2" +:+ nl]
    = ("[Data]" +:+ nl +:+ "Lane,Sample_ID,index,index2" +:+ nl,
       Raise UnboundLocalError)
  ∧ _count_index_lengths ["GG-TT-AA"; "AAAA-CCCC"] []
    = Counted [] [PyTuple [4; 4]] (Raise AttributeError).
Proof. repeat split; vm_compute; reflexivity. Qed.

(** ** Index lengths *)

Lemma elem_of_index_lengths_set o (il : list pyobj) :
  o ∈ (list_to_set (filter (λ index_length, index_length ≠ PyNone) il)
         : gset pyobj)
  ↔ o ∈ il ∧ o ≠ PyNone.
Proof. rewrite elem_of_list_to_set, list_elem_of_filter. tauto. Qed.

Lemma single_index_lengths_Ok il o :
  single_index_lengths il = Ok o →
  o ∈ il ∧ o ≠ PyNone ∧ ∀ o', o' ∈ il → o' ≠ PyNone → o' = o.
Proof.
  unfold single_index_lengths, unique_index_lengths.
  set (X := list_to_set _ : gset pyobj). intros H.
  case_decide as Hlen; [done|].
  assert (size X = 1%nat) as Hsize by (unfold size, set_size; simpl; lia).
  destruct (size_1_elem_of X Hsize) as [x Hx%leibniz_equiv].
  rewrite Hx, elements_singleton in H. injection H as ->.
  assert (∀ o', o' ∈ il ∧ o' ≠ PyNone ↔ o' = o) as Hall.
  { intros o'. rewrite <-elem_of_index_lengths_set. fold X. rewrite Hx.
    apply elem_of_singleton. }
  destruct (proj2 (Hall o) eq_refl) as [Hin Hnone].
  repeat split; [done..|]. intros o' ??. by apply Hall.
Qed.

Lemma single_index_lengths_uniform il o :
  il ≠ [] → o ≠ PyNone → Forall (λ o', o' = o) il →
  single_index_lengths il = Ok o.
Proof.
  intros Hne Ho Hall. unfold single_index_lengths, unique_index_lengths.
  set (X := list_to_set _ : gset pyobj).
  assert (X = {[ o ]}) as ->.
  { apply set_eq. intros o'. unfold X.
    rewrite elem_of_index_lengths_set, elem_of_singleton.
    rewrite Forall_forall in Hall. split; [intros [? _]; by apply Hall|].
    intros ->.
    split; [|done]. destruct il as [|o' il]; [done|].
    rewrite <-(Hall o') by left. left. }
  by rewrite elements_singleton.
Qed.

Lemma single_index_lengths_distinct il a b :
  a ∈ il → b ∈ il → a ≠ PyNone → b ≠ PyNone → a ≠ b →
  single_index_lengths il = Raise SystemExit.
Proof.
  intros Ha Hb Han Hbn Hab. unfold single_index_lengths, unique_index_lengths.
  set (X := list_to_set _ : gset pyobj).
  case_decide as Hlen; [done|]. exfalso. apply Hab.
  apply (size_singleton_inv X).
  - unfold size, set_size; simpl; lia.
  - by apply elem_of_index_lengths_set.
  - by apply elem_of_index_lengths_set.
Qed.

(** ** Bases mask *)

Lemma string_app_assoc (s1 s2 s3 : string) :
  (s1 +:+ s2) +:+ s3 = s1 +:+ s2 +:+ s3.
Proof.
  induction s1 as [|c s1 IH]; [done|].
  unfold String.app in *; simpl. by rewrite IH.
Qed.

Lemma string_app_nil_r (s : string) : s +:+ "" = s.
Proof.
  induction s as [|c s IH]; [done|].
  unfold String.app in *; simpl. by rewrite IH.
Qed.

Example mask_of_single_index_run :
  _get_use_bases_mask single_index_run [PyTuple [8; 0]] = Ok "y151,I8,y151".
Proof. vm_compute. reflexivity. Qed.

Example mask_of_short_index_read :
  _get_use_bases_mask
    [ {| Number := 2; NumCycles := 6; IsIndexedRead := "Y" |} ]
    [PyTuple [8; 0]] = Raise SystemExit.
Proof. vm_compute. reflexivity. Qed.

Lemma read_mask_not_indexed index_lengths mask_elements read_element :
  IsIndexedRead read_element ≠ "Y" →
  read_mask index_lengths mask_elements read_element
    = Ok (if decide (IsIndexedRead read_element = "N")
          then <[Number read_element :=
                   "y" +:+ pretty (NumCycles read_element)]> mask_elements
          else mask_elements).
Proof. intros HnY. unfold read_mask. by repeat case_decide. Qed.

Lemma read_mask_int z mask_elements read_element :
  IsIndexedRead read_element = "Y" →
  read_mask (PyInt z) mask_elements read_element = Raise TypeError.
Proof. intros HY. unfold read_mask. by case_decide. Qed.

(** With an [int] where the pair should be, the first indexed read stops
    the loop: reads that are not indexed never raise, and the subscript of
    an indexed one does. *)
Lemma for_in_read_mask_int z run_info mask_elements :
  (∃ read_element,
     read_element ∈ run_info ∧ IsIndexedRead read_element = "Y") →
  for_in run_info (read_mask (PyInt z)) mask_elements = Raise TypeError.
Proof.
  revert mask_elements.
  induction run_info as [|r run_info IH]; intros m [r' [Hin HY]].
  - by apply elem_of_nil in Hin.
  - simpl. destruct (decide (IsIndexedRead r = "Y")) as [|HnY].
    + by rewrite read_mask_int.
    + rewrite read_mask_not_indexed by done.
      apply elem_of_cons in Hin as [->|Hin]; [done|].
      simpl. apply IH. eauto.
Qed.

Lemma run_without_barcodes_raises default_index_lengths run_info :
  (∃ read_element,
     read_element ∈ run_info ∧ IsIndexedRead read_element = "Y") →
  run [] default_index_lengths run_info
    = ([], default_index_lengths, Raise TypeError).
Proof.
  intros Hindexed. unfold run. simpl. do 2 f_equal.
  unfold _get_use_bases_mask.
  replace (single_index_lengths [PyInt 0; PyInt 0]) with (Ok (PyInt 0))
    by (vm_compute; reflexivity).
  simpl. by rewrite for_in_read_mask_int.
Qed.

(** C2. An empty barcode file gives an empty dict, and [run] on its keys
    takes the [(0,0)] branch. The set comprehension then runs over the two
    integers of that tuple, the one index length left is the integer 0,
    and the subscript at the first indexed read raises a type error: no
    mask is returned. With the pair [(0,0)] as the one entry of a list the
    same run gets the mask y151,n8,y151. *)
Theorem empty_barcodes_mask_raises :
  let self := {| run_name := "run"; lane_index := 1 |} in
  (create_sample_sheet self []).2 = Ok ("run-L1-samplesheet.csv", ∅)
  ∧ keys (∅ : gmap string (option string)) = []
  ∧ single_index_lengths [PyInt 0; PyInt 0] = Ok (PyInt 0)
  ∧ run [] [] single_index_run = ([], [], Raise TypeError)
  ∧ _get_use_bases_mask single_index_run [PyTuple [0; 0]]
    = Ok "y151,n8,y151".
Proof. repeat split; vm_compute; reflexivity. Qed.

Lemma read_mask_indexed index_lengths mask_elements read_element L :
  IsIndexedRead read_element = "Y" →
  getitem index_lengths (Number read_element - 2) = Ok L →
  read_mask index_lengths mask_elements read_element
    = (let index_mask := if decide (L > 0) then "I" +:+ pretty L else "" in
       n_mask ←
         (if decide (NumCycles read_element - L > 0) then
            Ok ("n" +:+ pretty (NumCycles read_element - L))
          else if decide (NumCycles read_element - L < 0) then
            Raise SystemExit
          else Ok "");
       Ok (<[Number read_element := index_mask +:+ n_mask]> mask_elements)).
Proof. intros HY HL. unfold read_mask. rewrite HL. by case_decide. Qed.

(** C1. An indexed read of C cycles whose position is assigned the index
    length L. For L > 0 the token stored for the read is I<L> when C = L
    and I<L>n<C-L> when C > L. For L = 0 the index part is left out: the
    token is empty when C = 0 and n<C> when C > 0. Whenever C < L the
    derivation exits; the index length is never cut down to C. *)
Theorem indexed_read_token (index_lengths : pyobj)
    (mask_elements : gmap Z string) (read_element : Read) (L : Z) :
  IsIndexedRead read_element = "Y" →
  getitem index_lengths (Number read_element - 2) = Ok L →
  let C := NumCycles read_element in
  let emits (token : string) :=
    read_mask index_lengths mask_elements read_element
      = Ok (<[Number read_element := token]> mask_elements) in
  (0 < L → C = L → emits ("I" +:+ pretty L))
  ∧ (0 < L → L < C → emits ("I" +:+ pretty L +:+ "n" +:+ pretty (C - L)))
  ∧ (L = 0 → C = 0 → emits "")
  ∧ (L = 0 → 0 < C → emits ("n" +:+ pretty C))
  ∧ (C < L →
     read_mask index_lengths mask_elements read_element = Raise SystemExit).
Proof.
  intros HY HL C emits. unfold emits.
  rewrite (read_mask_indexed _ _ _ L HY HL). fold C.
  repeat split; intros; repeat case_decide; try lia; simpl.
  all: try (subst L; replace (C - 0) with C by lia).
  all: rewrite ?string_app_nil_r, ?string_app_assoc; reflexivity.
Qed.

Lemma indexed_read_token_witness :
  read_mask (PyTuple [8; 0]) ∅
      {| Number := 2; NumCycles := 10; IsIndexedRead := "Y" |}
    = Ok (<[2 := "I8n2"]> ∅)
  ∧ read_mask (PyTuple [8; 0]) ∅
      {| Number := 2; NumCycles := 6; IsIndexedRead := "Y" |}
    = Raise SystemExit.
Proof.
  split.
  - refine (proj1 (proj2 (indexed_read_token (PyTuple [8; 0]) ∅
      {| Number := 2; NumCycles := 10; IsIndexedRead := "Y" |} 8
      eq_refl eq_refl)) _ _); simpl; lia.
  - refine (proj2 (proj2 (proj2 (proj2 (indexed_read_token (PyTuple [8; 0]) ∅
      {| Number := 2; NumCycles := 6; IsIndexedRead := "Y" |} 8
      eq_refl eq_refl)))) _); simpl; lia.
Defined.

(** The second index read of a dual-index run whose barcodes have no i5:
    the read is assigned the index length 0 and its token is n8, not
    I0n8. *)
Lemma zero_index_length_token :
  let read_element := {| Number := 3; NumCycles := 8; IsIndexedRead := "Y" |} in
  getitem (PyTuple [8; 0]) (Number read_element - 2) = Ok 0
  ∧ read_mask (PyTuple [8; 0]) ∅ read_element = Ok (<[3 := "n8"]> ∅)
  ∧ read_mask (PyTuple [8; 0]) ∅ read_element
    ≠ Ok (<[3 := "I" +:+ pretty 0 +:+ "n" +:+ pretty (8 - 0)]> ∅)
  ∧ _get_use_bases_mask dual_index_run [PyTuple [8; 0]]
    = Ok "y151,I8,n8,y151".
Proof.
  repeat split; try (vm_compute; reflexivity).
  intros H.
  apply (f_equal (λ r, match r with Ok m => m !! 3 | Raise _ => None end))
    in H.
  vm_compute in H. discriminate H.
Qed.

(** ** The two applets *)

Lemma read_masks_agree index_lengths mask_elements read_element :
  (∀ L, IsIndexedRead read_element = "Y" →
        getitem index_lengths (Number read_element - 2) = Ok L → 0 < L) →
  bcl2fastq2_by_lane.read_mask index_lengths mask_elements read_element
    = read_mask index_lengths mask_elements read_element.
Proof.
  intros Hpos. unfold bcl2fastq2_by_lane.read_mask, read_mask.
  case_decide as HY; [|done].
  destruct (getitem index_lengths (Number read_element - 2)) as [L|] eqn:HL;
    [|done].
  simpl. specialize (Hpos L HY eq_refl).
  destruct (decide (L > 0)); [done|lia].
Qed.

Lemma for_in_read_masks_agree index_lengths run_info mask_elements :
  (∀ read_element L,
     read_element ∈ run_info → IsIndexedRead read_element = "Y" →
     getitem index_lengths (Number read_element - 2) = Ok L → 0 < L) →
  for_in run_info (bcl2fastq2_by_lane.read_mask index_lengths) mask_elements
    = for_in run_info (read_mask index_lengths) mask_elements.
Proof.
  revert mask_elements.
  induction run_info as [|r run_info IH]; intros m Hpos; [done|].
  simpl. rewrite read_masks_agree.
  - destruct (read_mask index_lengths m r) as [m'|]; [|done].
    simpl. apply IH. intros r' L Hin. apply Hpos. by right.
  - intros L. apply Hpos. by left.
Qed.

(** At index length 0 the two loop bodies part: the older applet writes
    the index part I0 in front of what the other stores alone. *)
Lemma read_masks_differ_at_zero index_lengths mask_elements read_element :
  IsIndexedRead read_element = "Y" →
  getitem index_lengths (Number read_element - 2) = Ok 0 →
  0 ≤ NumCycles read_element →
  ∃ n_mask,
    read_mask index_lengths mask_elements read_element
      = Ok (<[Number read_element := n_mask]> mask_elements)
    ∧ bcl2fastq2_by_lane.read_mask index_lengths mask_elements read_element
      = Ok (<[Number read_element := "I0" +:+ n_mask]> mask_elements).
Proof.
  intros HY HL HC. unfold bcl2fastq2_by_lane.read_mask, read_mask.
  rewrite HL. simpl. repeat case_decide; try lia; try done; eauto.
Qed.

(** C10. Both applets are given the same run and the same list of index
    lengths. When every index length an indexed read of the run can be
    assigned is positive, they return the same mask, or stop with the
    same exception. *)
Theorem masks_agree_on_positive_index_lengths (run_info_file : list Read)
    (index_lengths_list : list pyobj) :
  (∀ read_element index_lengths L,
     read_element ∈ run_info_file → IsIndexedRead read_element = "Y" →
     index_lengths ∈ index_lengths_list →
     getitem index_lengths (Number read_element - 2) = Ok L → 0 < L) →
  bcl2fastq2_by_lane.get_use_bases_mask run_info_file index_lengths_list
    = _get_use_bases_mask run_info_file index_lengths_list.
Proof.
  intros Hpos.
  unfold bcl2fastq2_by_lane.get_use_bases_mask, _get_use_bases_mask.
  destruct (single_index_lengths index_lengths_list) as [o|] eqn:Ho;
    [|done].
  apply single_index_lengths_Ok in Ho as (Hin & _ & _). simpl.
  rewrite for_in_read_masks_agree; [done|]. eauto.
Qed.

Lemma masks_agree_on_positive_index_lengths_witness :
  bcl2fastq2_by_lane.get_use_bases_mask dual_index_run [PyTuple [8; 8]]
    = _get_use_bases_mask dual_index_run [PyTuple [8; 8]].
Proof.
  apply masks_agree_on_positive_index_lengths.
  intros r o L Hr HY Ho HL.
  apply list_elem_of_singleton in Ho as ->.
  repeat (apply elem_of_cons in Hr as [->|Hr]);
    [discriminate HY | | | discriminate HY | by apply elem_of_nil in Hr];
    vm_compute in HL; injection HL as <-; lia.
Defined.

(** The dual-index run with barcodes that have no i5: the second index
    read is assigned the length 0, and the masks of the two applets
    differ in its token. *)
Lemma masks_differ_at_zero_index_length :
  bcl2fastq2_by_lane.get_use_bases_mask dual_index_run [PyTuple [8; 0]]
    = Ok "y151,I8,I0n8,y151"
  ∧ _get_use_bases_mask dual_index_run [PyTuple [8; 0]]
    = Ok "y151,I8,n8,y151"
  ∧ bcl2fastq2_by_lane.get_use_bases_mask dual_index_run [PyTuple [8; 0]]
    ≠ _get_use_bases_mask dual_index_run [PyTuple [8; 0]].
Proof. repeat split; vm_compute; [reflexivity..|discriminate]. Qed.

(** ** Traversal of the barcodes *)

Lemma pop_snoc {A} (l : list A) x : pop (l ++ [x]) = Some (l, x).
Proof. unfold pop. by rewrite last_snoc, removelast_last. Qed.

Lemma count_index_lengths_nil index_lengths :
  _count_index_lengths [] index_lengths
    = Counted [] index_lengths (Ok index_lengths).
Proof. reflexivity. Qed.

Lemma count_index_lengths_snoc barcodes barcode index_lengths :
  _count_index_lengths (barcodes ++ [barcode]) index_lengths
    = match barcode_index_lengths barcode with
      | Ok lengths => _count_index_lengths barcodes (index_lengths ++ [lengths])
      | Raise e => Counted barcodes index_lengths (Raise e)
      end.
Proof.
  rewrite _count_index_lengths_equation_1.
  generalize (inspect (pop (barcodes ++ [barcode]))). intros [y Hy].
  assert (y = Some (barcodes, barcode)) as ->
    by (rewrite <-Hy; apply pop_snoc).
  rewrite _count_index_lengths_clause_1_equation_1.
  destruct (barcode_index_lengths barcode).
  - by rewrite _count_index_lengths_clause_1_clause_2_equation_1.
  - by rewrite _count_index_lengths_clause_1_clause_2_equation_2.
Qed.

(** When no barcode raises, the traversal appends one pair per barcode,
    last barcode first, and leaves the barcode list empty. *)
Lemma count_index_lengths_all_Ok (f : string → pyobj) barcodes index_lengths :
  Forall (λ barcode, barcode_index_lengths barcode = Ok (f barcode)) barcodes →
  _count_index_lengths barcodes index_lengths
    = Counted [] (index_lengths ++ (f <$> reverse barcodes))
        (Ok (index_lengths ++ (f <$> reverse barcodes))).
Proof.
  revert index_lengths.
  induction barcodes as [|b bs IH] using rev_ind; intros il Hall.
  - rewrite count_index_lengths_nil. simpl. by rewrite app_nil_r.
  - apply Forall_app in Hall as [Hbs Hb%Forall_inv].
    rewrite count_index_lengths_snoc, Hb, IH by done.
    by rewrite reverse_snoc, fmap_cons, <-app_assoc.
Qed.

Lemma barcode_index_lengths_well_formed barcode :
  (length (split "-" barcode) ≤ 2)%nat →
  barcode_index_lengths barcode
    = Ok (PyTuple [i7_length barcode; i5_length barcode]).
Proof.
  intros Hlen. unfold barcode_index_lengths, i7_length, i5_length.
  pose proof (split_nonempty "-" barcode) as Hne.
  destruct (split "-" barcode) as [|a [|b [|c l]]]; try done.
  simpl in Hlen. lia.
Qed.

Lemma count_index_lengths_prefix barcodes index_lengths :
  let c := _count_index_lengths barcodes index_lengths in
  barcodes_after c `prefix_of` barcodes
  ∧ (barcodes ≠ [] → (length (barcodes_after c) < length barcodes)%nat)
  ∧ (∀ l, returned c = Ok l → barcodes_after c = []).
Proof.
  revert index_lengths.
  induction barcodes as [|b bs IH] using rev_ind; intros il.
  - rewrite count_index_lengths_nil. simpl. done.
  - rewrite count_index_lengths_snoc.
    destruct (barcode_index_lengths b) as [p|e]; simpl.
    + destruct (IH (il ++ [p])) as (Hpre & _ & Hok).
      split_and!; [by apply prefix_app_r| |done].
      intros _. apply prefix_length in Hpre. rewrite length_app. simpl. lia.
    + split_and!; [by apply prefix_app_r| |done].
      intros _. rewrite length_app. simpl. lia.
Qed.

(** C4. A non-empty set of barcode tokens with at most one '-' each,
    traversed with the accumulator as it is when the applet starts. When
    every barcode has i7 length [i7] and i5 length [i5] (0 for a barcode
    without i5), the one pair that comes out is [(i7, i5)]. When two
    barcodes of the set differ in a length, the derivation exits, whatever
    the run. *)
Theorem index_lengths_of_barcodes (barcodes : list string) :
  barcodes ≠ [] →
  Forall (λ barcode, (length (split "-" barcode) ≤ 2)%nat) barcodes →
  let IndexLengths :=
    returned (_count_index_lengths barcodes []) ≫= single_index_lengths in
  (∀ i7 i5,
     Forall (λ barcode, i7_length barcode = i7 ∧ i5_length barcode = i5)
       barcodes →
     IndexLengths = Ok (PyTuple [i7; i5]))
  ∧ (∀ barcode1 barcode2,
       barcode1 ∈ barcodes → barcode2 ∈ barcodes →
       (i7_length barcode1, i5_length barcode1)
         ≠ (i7_length barcode2, i5_length barcode2) →
       IndexLengths = Raise SystemExit
       ∧ ∀ run_info_file,
           (run barcodes [] run_info_file).2 = Raise SystemExit).
Proof.
  intros Hne Hwf IndexLengths.
  pose (f := λ barcode, PyTuple [i7_length barcode; i5_length barcode]).
  assert (_count_index_lengths barcodes []
            = Counted [] (f <$> reverse barcodes)
                (Ok (f <$> reverse barcodes))) as Hcount.
  { rewrite (count_index_lengths_all_Ok f); [done|].
    eapply Forall_impl; [exact Hwf|]. intros b.
    apply barcode_index_lengths_well_formed. }
  assert (IndexLengths = single_index_lengths (f <$> reverse barcodes))
    as HIL by (unfold IndexLengths; by rewrite Hcount).
  split.
  - intros i7 i5 Hall. rewrite HIL. apply single_index_lengths_uniform.
    + destruct barcodes as [|b bs]; [done|].
      rewrite reverse_cons, fmap_app. simpl. by destruct (f <$> reverse bs).
    + done.
    + apply Forall_fmap, Forall_reverse.
      eapply Forall_impl; [exact Hall|]. intros b [<- <-]. done.
  - intros b1 b2 Hb1 Hb2 Hdiff.
    assert (IndexLengths = Raise SystemExit) as Hexit.
    { rewrite HIL. apply (single_index_lengths_distinct _ (f b1) (f b2)).
      - apply list_elem_of_fmap_2. by apply elem_of_reverse.
      - apply list_elem_of_fmap_2. by apply elem_of_reverse.
      - done.
      - done.
      - unfold f. intros [= H7 H5]. apply Hdiff. by rewrite H7, H5. }
    split; [done|]. intros run_info_file. unfold run.
    destruct (decide (length barcodes = 0%nat)) as [Hlen|_].
    { by destruct barcodes. }
    rewrite Hcount. simpl. unfold _get_use_bases_mask.
    rewrite HIL in Hexit. by rewrite Hexit.
Qed.

Lemma index_lengths_of_barcodes_witness :
  (returned (_count_index_lengths ["ACGTACGT"; "TTGGCCAA-ACGT"; "ACGTAC"] [])
     ≫= single_index_lengths = Raise SystemExit)
  ∧ (returned (_count_index_lengths ["ACGTACGT"; "TTGGCCAA"] [])
     ≫= single_index_lengths = Ok (PyTuple [8; 0])).
Proof.
  split.
  - refine (proj1 (proj2 (index_lengths_of_barcodes
      ["ACGTACGT"; "TTGGCCAA-ACGT"; "ACGTAC"] _ _)
      "ACGTACGT" "ACGTAC" _ _ _)).
    + discriminate.
    + repeat constructor; vm_compute; lia.
    + apply elem_of_cons. by left.
    + do 2 (apply elem_of_cons; right). apply elem_of_cons. by left.
    + vm_compute. discriminate.
  - refine (proj1 (index_lengths_of_barcodes ["ACGTACGT"; "TTGGCCAA"] _ _)
      8 0 _).
    + discriminate.
    + repeat constructor; vm_compute; lia.
    + repeat constructor.
Defined.

Example accumulator_outlives_a_call :
  let first := run ["ACGTACGT"] [] single_index_run in
  first = ([], [PyTuple [8; 0]], Ok "y151,I8,y151")
  ∧ run ["ACGTAC"] first.1.2 single_index_run
    = ([], [PyTuple [8; 0]; PyTuple [6; 0]], Raise SystemExit).
Proof. split; vm_compute; reflexivity. Qed.

(** C8. The traversal takes the barcodes off the end of the list it is
    given: what is left is an initial part of the list, it is the whole
    list only when the list was empty, and after a call that returns
    nothing is left. *)
Theorem count_index_lengths_drains_barcodes (barcodes : list string)
    (index_lengths : list pyobj) :
  let c := _count_index_lengths barcodes index_lengths in
  barcodes_after c `prefix_of` barcodes
  ∧ (barcodes_after c = barcodes ↔ barcodes = [])
  ∧ (∀ l, returned c = Ok l → barcodes_after c = []).
Proof.
  intros c.
  destruct (count_index_lengths_prefix barcodes index_lengths)
    as (Hpre & Hlen & Hok). fold c in Hpre, Hlen, Hok.
  split_and!; [done| |done]. split.
  - intros Heq. destruct (decide (barcodes = [])) as [|Hne]; [done|].
    specialize (Hlen Hne). rewrite Heq in Hlen. lia.
  - intros ->. by apply prefix_nil_inv in Hpre.
Qed.

Lemma count_index_lengths_drains_barcodes_witness :
  barcodes_after (_count_index_lengths ["ACGTACGT"; "TTGGCCAA"] []) = [].
Proof.
  refine (proj2 (proj2 (count_index_lengths_drains_barcodes
    ["ACGTACGT"; "TTGGCCAA"] [])) [PyTuple [8; 0]; PyTuple [8; 0]] _).
  vm_compute. reflexivity.
Defined.

(** Two barcodes go in, none is left in the caller's list. *)
Lemma barcodes_not_preserved :
  let barcodes := ["ACGTACGT"; "TTGGCCAA"] in
  let c := _count_index_lengths barcodes [] in
  returned c = Ok [PyTuple [8; 0]; PyTuple [8; 0]]
  ∧ barcodes_after c = []
  ∧ barcodes_after c ≠ barcodes.
Proof. repeat split; vm_compute; [reflexivity..|discriminate]. Qed.

(** * Further properties of the code *)

(** ** Splitting *)

Lemma split_no_sep sep s :
  sep ∉ String.list_ascii_of_string s → split sep s = [s].
Proof.
  induction s as [|c s IH]; simpl; [done|]. intros Hnot.
  apply not_elem_of_cons in Hnot as [Hc Hs].
  case_decide; [congruence|]. by rewrite IH.
Qed.

Lemma split_fields_no_sep sep s field :
  field ∈ split sep s → sep ∉ String.list_ascii_of_string field.
Proof.
  revert field. induction s as [|c s IH]; simpl; intros field Hin.
  - apply list_elem_of_singleton in Hin as ->. apply not_elem_of_nil.
  - case_decide as Hc.
    + apply elem_of_cons in Hin as [->|Hin]; [apply not_elem_of_nil|eauto].
    + destruct (split sep s) as [|f fs] eqn:Hsplit.
      * apply list_elem_of_singleton in Hin as ->. simpl.
        apply not_elem_of_cons. split; [congruence|apply not_elem_of_nil].
      * apply elem_of_cons in Hin as [->|Hin].
        -- simpl. apply not_elem_of_cons. split; [congruence|].
           apply IH. by left.
        -- apply IH. by right.
Qed.

Lemma split_app_sep sep a b :
  ∃ field fields,
    split sep (a +:+ String sep b) = (field :: fields) ++ split sep b.
Proof.
  induction a as [|c a (f & fs & IH)]; unfold String.app in *; simpl.
  - exists "", []. by case_decide.
  - rewrite IH. case_decide.
    + by exists "", (f :: fs).
    + by exists (String c f), fs.
Qed.

Lemma last_split_app sep a b :
  last (split sep (a +:+ String sep b)) = last (split sep b).
Proof.
  destruct (split_app_sep sep a b) as (f & fs & ->).
  pose proof (split_nonempty sep b) as Hne.
  destruct (split sep b) as [|g gs] using rev_ind; [done|].
  by rewrite app_assoc, !last_snoc.
Qed.

Lemma take_str_no_sep sep n s :
  sep ∉ String.list_ascii_of_string s → sep ∉ String.list_ascii_of_string (take_str n s).
Proof.
  revert s. induction n as [|n IH]; intros [|c s]; simpl;
    try (intros; apply not_elem_of_nil).
  intros [Hc Hs]%not_elem_of_cons. apply not_elem_of_cons. eauto.
Qed.

Lemma take_str_all n s : (String.length s ≤ n)%nat → take_str n s = s.
Proof.
  revert s. induction n as [|n IH]; intros [|c s]; simpl; try done; [lia|].
  intros Hlen. rewrite IH; [done|lia].
Qed.

(** ** Flowcell identifiers, continued *)

(** X1. Whatever [truncate_flowcell_id] returns has at most five characters
    and no hyphen, and truncating it again gives it back. *)
Theorem truncate_flowcell_id_idempotent (flowcell_id trunc_flowcell_id : string) :
  truncate_flowcell_id flowcell_id = Ok trunc_flowcell_id →
  (String.length trunc_flowcell_id ≤ 5)%nat
  ∧ (("-" : ascii) ∉ String.list_ascii_of_string trunc_flowcell_id)
  ∧ truncate_flowcell_id trunc_flowcell_id = Ok trunc_flowcell_id.
Proof.
  rewrite truncate_flowcell_id_cases. intros Htrunc.
  assert (∃ field, field ∈ split "-" flowcell_id
                   ∧ trunc_flowcell_id = take_str 5 field) as (f & Hf & ->).
  { destruct (split "-" flowcell_id) as [|a [|b [|c l]]];
      try discriminate Htrunc; injection Htrunc as <-.
    - exists a. split; [by left|done].
    - exists b. split; [right; by left|done]. }
  apply split_fields_no_sep in Hf.
  assert (String.length (take_str 5 f) ≤ 5)%nat as Hlen
    by (rewrite take_str_length; lia).
  split_and!; [done|by apply take_str_no_sep|].
  rewrite truncate_flowcell_id_cases, split_no_sep
    by (by apply take_str_no_sep).
  by rewrite take_str_all.
Qed.

Lemma truncate_flowcell_id_idempotent_witness :
  truncate_flowcell_id "AMG8G" = Ok "AMG8G".
Proof.
  refine (proj2 (proj2 (truncate_flowcell_id_idempotent
    "000000000-AMG8G" "AMG8G" _))).
  vm_compute. reflexivity.
Defined.

(** ** Output classifier, continued *)

Lemma pretty_int_of_digit d n :
  Ascii.is_nat d = Some n → pretty (int_of_digit d) = String d "".
Proof.
  destruct d as [[] [] [] [] [] [] [] []]; intros Hd;
    try discriminate Hd; vm_compute; reflexivity.
Qed.

(** X2. A file name of five segments (barcode first, read segment fourth) or
    of six (two barcode halves first, read segment fifth), a read segment
    that starts with R and a digit, and a flowcell id that truncates: the
    new name is SCGPM_<library>_<flowcell>_L<lane>_<barcode>_R<digit>.fastq.gz,
    the read index is that digit, and nothing is printed. *)
Theorem fastq_name_of_matching_file fastq_path flowcell_id library_name
    lane_index barcode read d trunc_flowcell_id :
  (∃ e0 e1 e2 e3 e5,
     split "_" (basename fastq_path) = [e0; e1; e2; e3; read; e5]
     ∧ barcode = e0 +:+ "-" +:+ e1)
  ∨ (∃ e1 e2 e4, split "_" (basename fastq_path) = [barcode; e1; e2; read; e4]) →
  match_read_index read = Some d →
  truncate_flowcell_id flowcell_id = Ok trunc_flowcell_id →
  _get_scgpm_fastq_name fastq_path flowcell_id library_name lane_index
    = ([], Ok ("SCGPM_" +:+ library_name +:+ "_" +:+ trunc_flowcell_id
                 +:+ "_L" +:+ pretty lane_index +:+ "_" +:+ barcode
                 +:+ "_R" +:+ String d "" +:+ ".fastq.gz",
               barcode, String d "")).
Proof.
  intros Hshape Hread Htrunc. unfold _get_scgpm_fastq_name.
  assert (∃ n, Ascii.is_nat d = Some n) as [n Hn].
  { unfold match_read_index in Hread.
    destruct read as [|r read]; [discriminate Hread|].
    destruct r as [[] [] [] [] [] [] [] []]; try discriminate Hread.
    destruct read as [|d' read]; [discriminate Hread|].
    destruct (Ascii.is_nat d') eqn:Hd'; [|discriminate Hread].
    injection Hread as ->. eauto. }
  destruct Hshape as [(e0&e1&e2&e3&e5&->&->)|(e1&e2&e4&->)]; simpl;
    rewrite Hread, Htrunc; simpl; by rewrite (pretty_int_of_digit d n).
Qed.

Lemma fastq_name_of_matching_file_witness :
  _get_scgpm_fastq_name "out/Undetermined_S0_L003_R1_001.fastq.gz"
      "000000000-AMG8G" "Lib-7" 3
    = ([], Ok ("SCGPM_Lib-7_AMG8G_L3_Undetermined_R1.fastq.gz",
               "Undetermined", "1")).
Proof.
  refine (fastq_name_of_matching_file _ _ _ _ "Undetermined" "R1" "1" "AMG8G"
    _ _ _).
  - right. exists "S0", "L003", "001.fastq.gz". vm_compute. reflexivity.
  - reflexivity.
  - vm_compute. reflexivity.
Defined.

Lemma truncate_flowcell_id_Ok_iff flowcell_id :
  (∃ trunc_flowcell_id,
     truncate_flowcell_id flowcell_id = Ok trunc_flowcell_id)
  ↔ (length (split "-" flowcell_id) ≤ 2)%nat.
Proof.
  rewrite truncate_flowcell_id_cases.
  pose proof (split_nonempty "-" flowcell_id).
  destruct (split "-" flowcell_id) as [|a [|b [|c l]]]; simpl;
    try done; split; eauto; try lia; by intros [r Hr].
Qed.

(** X3. The classification of a file returns a name exactly when the base
    name has five or six segments, the segment before the last starts
    with R and a digit, and the flowcell id has at most one hyphen. *)
Theorem fastq_name_succeeds_iff fastq_path flowcell_id library_name
    lane_index :
  let elements := split "_" (basename fastq_path) in
  (∃ r, (_get_scgpm_fastq_name fastq_path flowcell_id library_name
           lane_index).2 = Ok r)
  ↔ (length elements = 5%nat ∨ length elements = 6%nat)
    ∧ (∃ read, elements !! (length elements - 2)%nat = Some read
               ∧ is_Some (match_read_index read))
    ∧ (length (split "-" flowcell_id) ≤ 2)%nat.
Proof.
  intros elements. unfold _get_scgpm_fastq_name. fold elements.
  pose proof (truncate_flowcell_id_Ok_iff flowcell_id) as Hfc.
  destruct (truncate_flowcell_id flowcell_id) as [trunc|e] eqn:Htrunc.
  - assert (length (split "-" flowcell_id) ≤ 2)%nat as Hlen
      by (apply Hfc; eauto).
    destruct elements as [|e0 [|e1 [|e2 [|e3 [|e4 [|e5 [|e6 l]]]]]]]; simpl;
      try (split; [by intros [r Hr]|intros ([|]&_); simpl in *; lia]).
    + destruct (match_read_index e3) as [d|] eqn:Hd; simpl.
      * split; [|eauto]. intros _.
        split_and!; [by left| |done]. exists e3. by rewrite Hd.
      * split; [by intros [r Hr]|intros (_&(read&[= <-]&Hsome)&_)].
        rewrite Hd in Hsome. by destruct Hsome.
    + destruct (match_read_index e4) as [d|] eqn:Hd; simpl.
      * split; [|eauto]. intros _.
        split_and!; [by right| |done]. exists e4. by rewrite Hd.
      * split; [by intros [r Hr]|intros (_&(read&[= <-]&Hsome)&_)].
        rewrite Hd in Hsome. by destruct Hsome.
  - assert (¬ (length (split "-" flowcell_id) ≤ 2)%nat) as Hlen
      by (intros [t Ht]%Hfc; discriminate Ht).
    split; [|by intros (_&_&?)]. intros [r Hr]. exfalso.
    destruct elements as [|e0 [|e1 [|e2 [|e3 [|e4 [|e5 [|e6 l]]]]]]];
      simpl in Hr; discriminate Hr.
Qed.

(** X4. Only the base name of the path counts: the directories in front of
    it change nothing. *)
Theorem fastq_name_ignores_directories directory fastq_path flowcell_id
    library_name lane_index :
  _get_scgpm_fastq_name (directory +:+ "/" +:+ fastq_path) flowcell_id
      library_name lane_index
    = _get_scgpm_fastq_name fastq_path flowcell_id library_name lane_index.
Proof.
  unfold _get_scgpm_fastq_name.
  assert (basename (directory +:+ "/" +:+ fastq_path) = basename fastq_path)
    as ->.
  { unfold basename.
    change ("/" +:+ fastq_path) with (String "/" fastq_path).
    by rewrite last_split_app. }
  done.
Qed.

(** ** Bases mask, continued *)

(** What one pass of the loop body does to the dict does not depend on
    the dict: it raises, leaves it alone, or stores one token under the
    number of the read. *)
Lemma read_mask_shape index_lengths read_element :
  (∃ e, ∀ m, read_mask index_lengths m read_element = Raise e)
  ∨ (∀ m, read_mask index_lengths m read_element = Ok m)
  ∨ (∃ token, ∀ m, read_mask index_lengths m read_element
                     = Ok (<[Number read_element := token]> m)).
Proof.
  unfold read_mask. case_decide as HY.
  - destruct (getitem index_lengths (Number read_element - 2)) as [L|e];
      simpl; [|by left; exists e].
    destruct (decide (NumCycles read_element - L > 0)); simpl;
      [by right; right; eexists|].
    destruct (decide (NumCycles read_element - L < 0)); simpl;
      [by left; eexists|by right; right; eexists].
  - case_decide; [by right; right; eexists|by right; left].
Qed.

(** X5. The index length of an indexed read is picked by the number of the
    read alone: read 2 gets the i7 length and read 3 the i5 length; the
    subscript [number-2] wraps around for reads 0 and 1, so an indexed
    read numbered 1 gets the i5 length; any other number is out of range
    and the derivation stops with an IndexError. *)
Theorem index_length_by_read_number (i7_length i5_length : Z) :
  (∀ number,
     getitem (PyTuple [i7_length; i5_length]) (number - 2)
       = if decide (number = 2 ∨ number = 0) then Ok i7_length
         else if decide (number = 3 ∨ number = 1) then Ok i5_length
         else Raise IndexError)
  ∧ (∀ mask_elements read_element,
       IsIndexedRead read_element = "Y" →
       ¬ (0 ≤ Number read_element ≤ 3) →
       read_mask (PyTuple [i7_length; i5_length]) mask_elements read_element
         = Raise IndexError).
Proof.
  assert (∀ number,
     getitem (PyTuple [i7_length; i5_length]) (number - 2)
       = if decide (number = 2 ∨ number = 0) then Ok i7_length
         else if decide (number = 3 ∨ number = 1) then Ok i5_length
         else Raise IndexError) as Hget.
  { intros number. unfold getitem. simpl.
    destruct (decide (number = 0)) as [->|]; [done|].
    destruct (decide (number = 1)) as [->|]; [done|].
    destruct (decide (number = 2)) as [->|]; [done|].
    destruct (decide (number = 3)) as [->|]; [done|].
    repeat case_decide; try lia; done. }
  split; [done|]. intros m r HY Hrange. unfold read_mask.
  rewrite Hget. repeat case_decide; try lia; done.
Qed.

Lemma index_length_by_read_number_witness :
  read_mask (PyTuple [8; 6]) ∅
      {| Number := 4; NumCycles := 8; IsIndexedRead := "Y" |}
    = Raise IndexError.
Proof.
  refine (proj2 (index_length_by_read_number 8 6) ∅ _ _ _);
    [reflexivity|simpl; lia].
Defined.

Lemma for_in_read_mask_filter index_lengths run_info mask_elements :
  for_in run_info (read_mask index_lengths) mask_elements
    = for_in
        (filter (λ read_element,
                   IsIndexedRead read_element = "Y"
                   ∨ IsIndexedRead read_element = "N") run_info)
        (read_mask index_lengths) mask_elements.
Proof.
  revert mask_elements. induction run_info as [|r rs IH]; intros m; [done|].
  rewrite filter_cons. case_decide as Hflag; simpl.
  - destruct (read_mask index_lengths m r); simpl; [apply IH|done].
  - rewrite read_mask_not_indexed by tauto.
    rewrite decide_False by tauto. simpl. apply IH.
Qed.

(** X6. A read whose IsIndexedRead attribute is neither "Y" nor "N" takes no
    part in the mask: the mask of a run is the mask of its reads flagged
    "Y" or "N". *)
Theorem mask_skips_other_flags (run_info_file : list Read)
    (index_lengths_list : list pyobj) :
  _get_use_bases_mask run_info_file index_lengths_list
    = _get_use_bases_mask
        (filter (λ read_element,
                   IsIndexedRead read_element = "Y"
                   ∨ IsIndexedRead read_element = "N") run_info_file)
        index_lengths_list.
Proof.
  unfold _get_use_bases_mask.
  destruct (single_index_lengths index_lengths_list); simpl; [|done].
  by rewrite for_in_read_mask_filter.
Qed.

Lemma for_in_read_mask_no_index o o' run_info mask_elements :
  Forall (λ read_element, IsIndexedRead read_element ≠ "Y") run_info →
  for_in run_info (read_mask o) mask_elements
    = for_in run_info (read_mask o') mask_elements
  ∧ ∃ m, for_in run_info (read_mask o) mask_elements = Ok m.
Proof.
  revert mask_elements.
  induction run_info as [|r rs IH]; intros m Hall; [by eauto|].
  apply Forall_cons in Hall as [Hr Hrs]. simpl.
  rewrite !read_mask_not_indexed by done. simpl. by apply IH.
Qed.

(** X7. A run without indexed reads gets a mask whatever the index lengths
    are, and the same one from every consistent list of index lengths; so
    it also gets that mask when there are no barcodes at all. *)
Theorem mask_without_indexed_reads (run_info_file : list Read)
    (index_lengths_list : list pyobj) (default_index_lengths : list pyobj)
    (index_lengths : pyobj) :
  Forall (λ read_element, IsIndexedRead read_element ≠ "Y") run_info_file →
  single_index_lengths index_lengths_list = Ok index_lengths →
  ∃ use_bases_mask,
    _get_use_bases_mask run_info_file index_lengths_list = Ok use_bases_mask
    ∧ run [] default_index_lengths run_info_file
      = ([], default_index_lengths, Ok use_bases_mask).
Proof.
  intros Hall Hil. unfold run, _get_use_bases_mask. simpl. rewrite Hil.
  replace (single_index_lengths [PyInt 0; PyInt 0]) with (Ok (PyInt 0))
    by (vm_compute; reflexivity).
  simpl.
  destruct (for_in_read_mask_no_index index_lengths (PyInt 0)
              run_info_file ∅ Hall) as [-> [m Hm]].
  rewrite Hm. simpl. eauto.
Qed.

Lemma mask_without_indexed_reads_witness :
  ∃ use_bases_mask,
    _get_use_bases_mask
      [ {| Number := 1; NumCycles := 101; IsIndexedRead := "N" |};
        {| Number := 2; NumCycles := 101; IsIndexedRead := "N" |} ]
      [PyTuple [8; 8]] = Ok use_bases_mask
    ∧ run [] []
        [ {| Number := 1; NumCycles := 101; IsIndexedRead := "N" |};
          {| Number := 2; NumCycles := 101; IsIndexedRead := "N" |} ]
      = ([], [], Ok use_bases_mask).
Proof.
  refine (mask_without_indexed_reads _ [PyTuple [8; 8]] [] (PyTuple [8; 8])
    _ _).
  - repeat constructor; discriminate.
  - vm_compute. reflexivity.
Defined.

Lemma NoDup_fst_eq {A B} (l : list (A * B)) x y :
  NoDup l.*1 → x ∈ l → y ∈ l → x.1 = y.1 → x = y.
Proof.
  induction l as [|z l IH]; intros Hnd Hx Hy Hxy; [by apply elem_of_nil in Hx|].
  apply NoDup_cons in Hnd as [Hz Hnd].
  apply elem_of_cons in Hx as [->|Hx]; apply elem_of_cons in Hy as [->|Hy].
  - done.
  - destruct Hz. rewrite Hxy. by apply list_elem_of_fmap_2.
  - destruct Hz. rewrite <-Hxy. by apply list_elem_of_fmap_2.
  - by apply IH.
Qed.

Lemma map_to_list_foldl_insert (kvs : list (Z * string)) (m : gmap Z string) :
  NoDup kvs.*1 → (∀ k, k ∈ kvs.*1 → m !! k = None) →
  map_to_list (foldl (λ m kv, <[kv.1 := kv.2]> m) m kvs)
    ≡ₚ kvs ++ map_to_list m.
Proof.
  revert m. induction kvs as [|[k v] kvs IH]; intros m Hnd Hfresh; [done|].
  apply NoDup_cons in Hnd as [Hk Hnd]. simpl. rewrite IH.
  - rewrite map_to_list_insert by (apply Hfresh; left).
    by rewrite Permutation_middle.
  - done.
  - intros k' Hk'. rewrite lookup_insert_ne by (by intros ->).
    apply Hfresh. by right.
Qed.

Lemma sorted_items_foldl_insert (kvs : list (Z * string)) :
  Sorted Z.lt kvs.*1 →
  sorted_items (foldl (λ m kv, <[kv.1 := kv.2]> m) ∅ kvs) = kvs.
Proof.
  intros Hsorted.
  assert (StronglySorted Z.lt kvs.*1) as Hstrong
    by (apply Sorted_StronglySorted; [intros ???; lia|done]).
  assert (NoDup kvs.*1) as Hnd.
  { clear Hsorted. induction Hstrong as [|k ks Hks IH Hall]; constructor;
      [|done].
    intros Hin. rewrite Forall_forall in Hall. specialize (Hall k Hin). lia. }
  assert (map_to_list (foldl (λ m kv, <[kv.1 := kv.2]> m) ∅ kvs) ≡ₚ kvs)
    as Hperm.
  { rewrite map_to_list_foldl_insert, map_to_list_empty, app_nil_r; done. }
  unfold sorted_items. apply (Sorted_unique_strong key_le).
  - intros x1 x2 Hx1 Hx2 H12 H21.
    apply (NoDup_fst_eq kvs); [done| |done|unfold key_le in *; lia].
    by rewrite merge_sort_Permutation, Hperm in Hx1.
  - apply Sorted_merge_sort. intros a b. unfold key_le. lia.
  - clear Hstrong Hnd Hperm. induction kvs as [|kv kvs IH]; [constructor|].
    apply Sorted_inv in Hsorted as [Hsorted Hhd].
    constructor; [by apply IH|].
    destruct kvs as [|kv' kvs]; constructor.
    apply HdRel_inv in Hhd. unfold key_le. simpl in Hhd. lia.
  - by rewrite merge_sort_Permutation.
Qed.

Lemma read_mask_token index_lengths read_element token :
  read_mask index_lengths ∅ read_element
    = Ok {[ Number read_element := token ]} →
  ∀ m, read_mask index_lengths m read_element
         = Ok (<[Number read_element := token]> m).
Proof.
  intros Hempty.
  destruct (read_mask_shape index_lengths read_element)
    as [[e He]|[Hid|[t Ht]]].
  - by rewrite He in Hempty.
  - rewrite Hid in Hempty.
    apply (f_equal (λ r, match r with
                         | Ok m => m !! Number read_element
                         | Raise _ => None
                         end)) in Hempty.
    by rewrite lookup_empty, lookup_singleton_eq in Hempty.
  - rewrite Ht in Hempty.
    apply (f_equal (λ r, match r with
                         | Ok m => m !! Number read_element
                         | Raise _ => None
                         end)) in Hempty.
    rewrite lookup_insert_eq, lookup_singleton_eq in Hempty.
    injection Hempty as ->. done.
Qed.

Lemma for_in_read_mask_tokens index_lengths run_info tokens m :
  Forall2 (λ read_element token,
             read_mask index_lengths ∅ read_element
               = Ok {[ Number read_element := token ]}) run_info tokens →
  for_in run_info (read_mask index_lengths) m
    = Ok (foldl (λ m kv, <[kv.1 := kv.2]> m) m
            (zip (Number <$> run_info) tokens)).
Proof.
  intros Hall. revert m.
  induction Hall as [|r t rs ts Hr Hrs IH]; intros m; [done|].
  simpl. rewrite (read_mask_token _ _ _ Hr). simpl. apply IH.
Qed.

(** X8. The reads of a run listed by strictly ascending number, each with a
    token (so flagged "Y" or "N", and no index longer than its read): the
    mask is the tokens of the reads, in that order, joined by commas. *)
Theorem mask_of_ascending_run (run_info_file : list Read)
    (index_lengths_list : list pyobj) (index_lengths : pyobj)
    (tokens : list string) :
  single_index_lengths index_lengths_list = Ok index_lengths →
  Forall2 (λ read_element token,
             read_mask index_lengths ∅ read_element
               = Ok {[ Number read_element := token ]})
    run_info_file tokens →
  Sorted Z.lt (Number <$> run_info_file) →
  _get_use_bases_mask run_info_file index_lengths_list
    = Ok (join "," tokens).
Proof.
  intros Hil Htokens Hsorted. unfold _get_use_bases_mask.
  rewrite Hil. simpl. rewrite (for_in_read_mask_tokens _ _ tokens) by done.
  simpl. pose proof (Forall2_length _ _ _ Htokens) as Hlen.
  rewrite sorted_items_foldl_insert.
  - rewrite snd_zip; [done|]. rewrite length_fmap. lia.
  - rewrite fst_zip; [done|]. rewrite length_fmap. lia.
Qed.

Lemma mask_of_ascending_run_witness :
  _get_use_bases_mask dual_index_run [PyTuple [6; 8]; PyTuple [6; 8]]
    = Ok (join "," ["y151"; "I6n2"; "I8"; "y151"]).
Proof.
  refine (mask_of_ascending_run dual_index_run _ (PyTuple [6; 8]) _ _ _ _).
  - vm_compute. reflexivity.
  - repeat constructor.
  - repeat constructor.
Defined.

Lemma for_in_read_mask_perm index_lengths run_info run_info' :
  run_info ≡ₚ run_info' →
  NoDup (Number <$> run_info) →
  ∀ m mask_elements,
    for_in run_info (read_mask index_lengths) m = Ok mask_elements →
    for_in run_info' (read_mask index_lengths) m = Ok mask_elements.
Proof.
  induction 1 as [|x l l' Hperm IH|x y l|l l' l'' H1 IH1 H2 IH2];
    intros Hnd m M Hfor.
  - done.
  - rewrite fmap_cons in Hnd. apply NoDup_cons in Hnd as [_ Hnd].
    simpl in *. destruct (read_mask index_lengths m x); simpl in *; eauto.
  - rewrite !fmap_cons in Hnd.
    apply NoDup_cons in Hnd as [Hyx _].
    assert (Number y ≠ Number x) as Hne
      by (intros Heq; apply Hyx; rewrite Heq; left).
    simpl in *.
    destruct (read_mask_shape index_lengths x) as [[ex Hx]|[Hx|[tx Hx]]];
      destruct (read_mask_shape index_lengths y) as [[ey Hy]|[Hy|[ty Hy]]];
      repeat (rewrite ?Hx, ?Hy in Hfor; simpl in Hfor);
      repeat (rewrite ?Hx, ?Hy; simpl); try done.
    by rewrite insert_insert_ne.
  - apply IH2; [by rewrite <-H1|]. by apply IH1.
Qed.

(** X9. For reads with distinct numbers, the order in which RunInfo.xml lists
    them does not matter: a run that gets a mask gets the same mask when
    its reads are listed in any other order. *)
Theorem mask_ignores_document_order (run_info_file run_info_file' : list Read)
    (index_lengths_list : list pyobj) (use_bases_mask : string) :
  NoDup (Number <$> run_info_file) →
  run_info_file ≡ₚ run_info_file' →
  _get_use_bases_mask run_info_file index_lengths_list = Ok use_bases_mask →
  _get_use_bases_mask run_info_file' index_lengths_list = Ok use_bases_mask.
Proof.
  intros Hnd Hperm. unfold _get_use_bases_mask.
  destruct (single_index_lengths index_lengths_list) as [o|]; simpl; [|done].
  destruct (for_in run_info_file (read_mask o) ∅) as [m|] eqn:Hfor;
    simpl; [|done].
  by rewrite (for_in_read_mask_perm o _ _ Hperm Hnd ∅ m Hfor).
Qed.

Lemma mask_ignores_document_order_witness :
  _get_use_bases_mask
    [ {| Number := 3; NumCycles := 151; IsIndexedRead := "N" |};
      {| Number := 1; NumCycles := 151; IsIndexedRead := "N" |};
      {| Number := 2; NumCycles := 8; IsIndexedRead := "Y" |} ]
    [PyTuple [8; 0]] = Ok "y151,I8,y151".
Proof.
  refine (mask_ignores_document_order single_index_run _ [PyTuple [8; 0]] _
    _ _ _).
  - repeat constructor; vm_compute; intros H;
      repeat (apply elem_of_cons in H as [H|H]; [discriminate H|]);
      by apply elem_of_nil in H.
  - unfold single_index_run. symmetry.
    apply (Permutation_cons_append [_; _]).
  - vm_compute. reflexivity.
Defined.

(** ** Traversal of the barcodes, continued *)

Lemma barcode_index_lengths_malformed barcode :
  (2 < length (split "-" barcode))%nat →
  barcode_index_lengths barcode = Raise AttributeError.
Proof.
  intros Hlen. unfold barcode_index_lengths.
  destruct (split "-" barcode) as [|a [|b [|c l]]]; simpl in *; try lia.
  done.
Qed.

Lemma count_index_lengths_returned_malformed barcodes index_lengths :
  ¬ Forall (λ barcode, (length (split "-" barcode) ≤ 2)%nat) barcodes →
  returned (_count_index_lengths barcodes index_lengths)
    = Raise AttributeError.
Proof.
  revert index_lengths.
  induction barcodes as [|b bs IH] using rev_ind; intros il Hnot.
  - destruct Hnot. constructor.
  - rewrite count_index_lengths_snoc.
    destruct (decide (length (split "-" b) ≤ 2)%nat) as [Hb|Hb].
    + rewrite barcode_index_lengths_well_formed by done. apply IH.
      intros Hbs. apply Hnot. apply Forall_app. split; [done|].
      by constructor.
    + rewrite barcode_index_lengths_malformed by lia. done.
Qed.

Lemma count_index_lengths_appends_pairs_aux barcodes index_lengths :
  Forall (λ barcode, (length (split "-" barcode) ≤ 2)%nat) barcodes →
  _count_index_lengths barcodes index_lengths
    = Counted []
        (index_lengths
           ++ ((λ barcode, PyTuple [i7_length barcode; i5_length barcode])
                 <$> reverse barcodes))
        (Ok (index_lengths
               ++ ((λ barcode, PyTuple [i7_length barcode; i5_length barcode])
                     <$> reverse barcodes))).
Proof.
  intros Hwf. apply count_index_lengths_all_Ok.
  eapply Forall_impl; [exact Hwf|]. intros b.
  apply barcode_index_lengths_well_formed.
Qed.

(** X10. Barcodes with at most one hyphen each: the traversal returns the
    accumulator it was given followed by one pair (i7 length, i5 length)
    per barcode, the last barcode first, and leaves the barcode list
    empty. *)
Theorem count_index_lengths_appends_pairs (barcodes : list string)
    (index_lengths : list pyobj) :
  Forall (λ barcode, (length (split "-" barcode) ≤ 2)%nat) barcodes →
  let pairs :=
    (λ barcode, PyTuple [i7_length barcode; i5_length barcode])
      <$> reverse barcodes in
  _count_index_lengths barcodes index_lengths
    = Counted [] (index_lengths ++ pairs) (Ok (index_lengths ++ pairs)).
Proof. intros Hwf pairs. by apply count_index_lengths_appends_pairs_aux. Qed.

Lemma count_index_lengths_appends_pairs_witness :
  _count_index_lengths ["ACGTAC-TTGG"; "ACGTACGT"] [PyTuple [1; 2]]
    = Counted [] [PyTuple [1; 2]; PyTuple [8; 0]; PyTuple [6; 4]]
        (Ok [PyTuple [1; 2]; PyTuple [8; 0]; PyTuple [6; 4]]).
Proof.
  refine (count_index_lengths_appends_pairs ["ACGTAC-TTGG"; "ACGTACGT"]
    [PyTuple [1; 2]] _).
  repeat constructor; vm_compute; lia.
Defined.

(** X11. A barcode with more than one hyphen, followed in the list only by
    barcodes with at most one: the traversal stops at it with the
    attribute error, having removed it and the barcodes after it from the
    list and appended the pairs of the barcodes after it; the barcodes in
    front of it stay in the list. *)
Theorem count_index_lengths_stops_at_malformed
    (before after : list string) (barcode : string)
    (index_lengths : list pyobj) :
  (2 < length (split "-" barcode))%nat →
  Forall (λ barcode, (length (split "-" barcode) ≤ 2)%nat) after →
  _count_index_lengths (before ++ barcode :: after) index_lengths
    = Counted before
        (index_lengths
           ++ ((λ barcode, PyTuple [i7_length barcode; i5_length barcode])
                 <$> reverse after))
        (Raise AttributeError).
Proof.
  intros Hbad. revert index_lengths.
  induction after as [|b bs IH] using rev_ind; intros il Hwf.
  - rewrite count_index_lengths_snoc, barcode_index_lengths_malformed by done.
    simpl. by rewrite app_nil_r.
  - apply Forall_app in Hwf as [Hbs Hb%Forall_inv].
    replace (before ++ barcode :: bs ++ [b])
      with ((before ++ barcode :: bs) ++ [b]) by (by rewrite <-app_assoc).
    rewrite count_index_lengths_snoc, barcode_index_lengths_well_formed
      by done.
    rewrite IH by done.
    by rewrite reverse_snoc, fmap_cons, <-app_assoc.
Qed.

Lemma count_index_lengths_stops_at_malformed_witness :
  _count_index_lengths ["AAAA"; "GG-TT-AA"; "ACGTACGT"] []
    = Counted ["AAAA"] [PyTuple [8; 0]] (Raise AttributeError).
Proof.
  refine (count_index_lengths_stops_at_malformed ["AAAA"] ["ACGTACGT"]
    "GG-TT-AA" [] _ _).
  - vm_compute. lia.
  - repeat constructor; vm_compute; lia.
Defined.

Lemma single_index_lengths_perm l l' :
  l ≡ₚ l' → single_index_lengths l = single_index_lengths l'.
Proof.
  intros Hperm. unfold single_index_lengths, unique_index_lengths.
  assert ((list_to_set (filter (λ o, o ≠ PyNone) l) : gset pyobj)
          = list_to_set (filter (λ o, o ≠ PyNone) l')) as ->; [|done].
  apply list_to_set_perm_L. by rewrite Hperm.
Qed.

(** X12. The mask that [run] derives does not depend on the order of the
    barcode list, which is the order of the keys of a dict: two lists with
    the same barcodes give the same result, be it a mask or a failure. *)
Theorem run_ignores_barcode_order (barcodes_list barcodes_list' : list string)
    (default_index_lengths : list pyobj) (run_info_file : list Read) :
  barcodes_list ≡ₚ barcodes_list' →
  (run barcodes_list default_index_lengths run_info_file).2
    = (run barcodes_list' default_index_lengths run_info_file).2.
Proof.
  intros Hperm. unfold run.
  pose proof (Permutation_length Hperm) as Hlen. rewrite <-Hlen.
  case_decide; [done|]. simpl.
  destruct (decide (Forall (λ barcode, (length (split "-" barcode) ≤ 2)%nat)
                      barcodes_list)) as [Hwf|Hwf].
  - assert (Forall (λ barcode, (length (split "-" barcode) ≤ 2)%nat)
              barcodes_list') as Hwf' by (by rewrite <-Hperm).
    rewrite !count_index_lengths_appends_pairs_aux by done. simpl.
    unfold _get_use_bases_mask.
    match goal with
    | |- single_index_lengths ?l ≫= _ = single_index_lengths ?l' ≫= _ =>
        rewrite (single_index_lengths_perm l l'); [done|]
    end.
    by rewrite !reverse_Permutation, Hperm.
  - assert (¬ Forall (λ barcode, (length (split "-" barcode) ≤ 2)%nat)
                barcodes_list') as Hwf' by (by rewrite <-Hperm).
    by rewrite !count_index_lengths_returned_malformed.
Qed.

Lemma run_ignores_barcode_order_witness :
  (run ["ACGTACGT"; "TTGGCCAA"] [] single_index_run).2
    = (run ["TTGGCCAA"; "ACGTACGT"] [] single_index_run).2.
Proof.
  apply run_ignores_barcode_order. apply perm_swap.
Defined.



(** ** Sample sheet, continued *)

Lemma sheet_line_blank self st line :
  split_whitespace line = [] → sheet_line self st line = Raise IndexError.
Proof. intros Hblank. unfold sheet_line. by rewrite Hblank. Qed.

Lemma sheet_lines_blank self st lines :
  (∃ line, line ∈ lines ∧ split_whitespace line = []) →
  ∃ e, (sheet_lines self st lines).2 = Raise e.
Proof.
  revert st. induction lines as [|l ls IH]; intros st (line & Hin & Hblank).
  - by apply elem_of_nil in Hin.
  - simpl. destruct (sheet_line self st l) as [st'|e] eqn:Hl; [|by eauto].
    apply elem_of_cons in Hin as [->|Hin].
    + by rewrite sheet_line_blank in Hl.
    + apply IH. eauto.
Qed.

(** X14. A barcode file with a line that holds nothing but whitespace, an
    empty line at its end say, never gets through: [create_sample_sheet]
    raises, at that line with an IndexError if not before. *)
Theorem sample_sheet_blank_line_raises (self : Bcl2fastqJob)
    (barcodes_file : list string) :
  (∃ line, line ∈ barcodes_file ∧ split_whitespace line = []) →
  ∃ e, (create_sample_sheet self barcodes_file).2 = Raise e.
Proof.
  intros Hblank. unfold create_sample_sheet.
  set (st := {| SHEET := _ |}).
  destruct (sheet_lines_blank self st barcodes_file Hblank) as [e He].
  destruct (sheet_lines self st barcodes_file) as [sheet r].
  simpl in *. subst r. by exists e.
Qed.

Lemma sample_sheet_blank_line_raises_witness :
  ∃ e, (create_sample_sheet {| run_name := "run"; lane_index := 1 |}
          ["ACGTACGT SampleA" +:+ nl; nl]).2 = Raise e.
Proof.
  apply sample_sheet_blank_line_raises. exists nl. split.
  - apply elem_of_cons. right. apply elem_of_cons. by left.
  - vm_compute. reflexivity.
Defined.

Lemma sheet_line_well_formed self st line barcode rest :
  split_whitespace line = barcode :: rest →
  (length rest ≤ 1)%nat →
  (length (split "-" (upper barcode)) ≤ 2)%nat →
  ∃ st',
    sheet_line self st line = Ok st'
    ∧ barcode_sample_dict st'
      = <[upper barcode := head rest]> (barcode_sample_dict st).
Proof.
  intros Hline Hrest Hidx. unfold sheet_line. rewrite Hline. simpl.
  pose proof (split_nonempty "-" (upper barcode)) as Hne.
  destruct (split "-" (upper barcode)) as [|i7 [|i5 [|x l]]];
    [done| | |simpl in Hidx; lia];
    destruct rest as [|s [|s' rest]]; simpl in *; try lia; eauto.
Qed.

(** X15. A barcode file in which every line has one or two words and a
    barcode with at most one hyphen: [create_sample_sheet] returns, the
    name of the sheet is <run_name>-L<lane_index>-samplesheet.csv, and
    the keys of the dict are the barcodes of the lines in upper case. *)
Theorem sample_sheet_of_well_formed_file (self : Bcl2fastqJob)
    (barcodes_file : list string) :
  Forall (λ line,
            ∃ barcode rest,
              split_whitespace line = barcode :: rest
              ∧ (length rest ≤ 1)%nat
              ∧ (length (split "-" (upper barcode)) ≤ 2)%nat)
    barcodes_file →
  ∃ barcode_sample_dict,
    (create_sample_sheet self barcodes_file).2
      = Ok (run_name self +:+ "-L" +:+ pretty (lane_index self)
              +:+ "-samplesheet.csv",
            barcode_sample_dict)
    ∧ dom barcode_sample_dict
      = list_to_set
          ((λ line, upper (default "" (head (split_whitespace line))))
             <$> barcodes_file).
Proof.
  intros Hwf. unfold create_sample_sheet.
  set (st := {| SHEET := _ |}).
  assert (dom (barcode_sample_dict st) = (∅ : gset string)) as Hdom
    by (unfold st; simpl; apply dom_empty_L).
  assert (∀ st0, ∃ st',
    sheet_lines self st0 barcodes_file = (SHEET st', Ok st')
    ∧ dom (barcode_sample_dict st')
      = dom (barcode_sample_dict st0)
        ∪ list_to_set
            ((λ line, upper (default "" (head (split_whitespace line))))
               <$> barcodes_file)) as Hloop.
  { induction Hwf as [|line lines (b & rest & Hline & Hrest & Hidx) _ IH];
      intros st0.
    - exists st0. split; [done|]. simpl. by rewrite union_empty_r_L.
    - destruct (sheet_line_well_formed self st0 line b rest Hline Hrest Hidx)
        as (st1 & Hst1 & Hdict).
      destruct (IH st1) as (st' & Hst' & Hdom').
      exists st'. simpl. rewrite Hst1. split; [done|].
      rewrite Hdom', Hdict, dom_insert_L, Hline. simpl.
      rewrite (comm_L (∪) {[upper b]} (dom (barcode_sample_dict st0))).
      by rewrite <-(assoc_L (∪)). }
  destruct (Hloop st) as (st' & -> & Hdom').
  exists (barcode_sample_dict st'). split; [done|].
  by rewrite Hdom', Hdom, union_empty_l_L.
Qed.

Lemma sample_sheet_of_well_formed_file_witness :
  ∃ barcode_sample_dict,
    (create_sample_sheet {| run_name := "run"; lane_index := 2 |}
       ["acgtacgt-ttgg SampleA" +:+ nl; "TTGGCCAA" +:+ nl]).2
      = Ok ("run" +:+ "-L" +:+ pretty 2 +:+ "-samplesheet.csv",
            barcode_sample_dict)
    ∧ dom barcode_sample_dict
      = list_to_set
          ((λ line, upper (default "" (head (split_whitespace line))))
             <$> ["acgtacgt-ttgg SampleA" +:+ nl; "TTGGCCAA" +:+ nl]).
Proof.
  apply (sample_sheet_of_well_formed_file
    {| run_name := "run"; lane_index := 2 |}).
  repeat constructor.
  - exists "acgtacgt-ttgg", ["SampleA"]. vm_compute. repeat split; lia.
  - exists "TTGGCCAA", []. vm_compute. repeat split; lia.
Defined.

(** X16. A line of three or more words, a sample name with a blank in it say:
    nothing is assigned to [sample_id] and nothing is stored in the dict.
    On the first line of the file the function raises, [sample_id] being
    unbound; on a later line the row is written with the sample id of the
    line before, and the barcode stays out of the dict. *)
Theorem sample_id_of_several_words (self : Bcl2fastqJob) (st : sheet_locals)
    (line barcode word1 word2 : string) (words : list string) :
  split_whitespace line = barcode :: word1 :: word2 :: words →
  (length (split "-" (upper barcode)) ≤ 2)%nat →
  (sample_id st = None → sheet_line self st line = Raise UnboundLocalError)
  ∧ (∀ previous,
       sample_id st = Some previous →
       ∃ st' row_end,
         sheet_line self st line = Ok st'
         ∧ barcode_sample_dict st' = barcode_sample_dict st
         ∧ SHEET st'
           = SHEET st +:+ (pretty (lane_index self) +:+ "," +:+ previous
                             +:+ "," +:+ row_end)).
Proof.
  intros Hline Hidx. unfold sheet_line. rewrite Hline. simpl.
  pose proof (split_nonempty "-" (upper barcode)) as Hne.
  destruct (split "-" (upper barcode)) as [|i7 [|i5 [|x l]]];
    [done| | |simpl in Hidx; lia]; simpl.
  - split; [by intros ->|]. intros previous ->. simpl. eauto.
  - split; [by intros ->|]. intros previous ->. simpl.
    destruct i5; simpl; eauto.
Qed.

Lemma sample_id_of_several_words_witness :
  ∃ st' row_end,
    sheet_line {| run_name := "run"; lane_index := 1 |}
        {| SHEET := "1,SampleA,ACGT,," +:+ nl;
           barcode_sample_dict := {[ "ACGT" := Some "SampleA" ]};
           i5 := Some None; sample_id := Some "SampleA" |}
        ("TTGG Sample B" +:+ nl) = Ok st'
    ∧ barcode_sample_dict st' = {[ "ACGT" := Some "SampleA" ]}
    ∧ SHEET st'
      = ("1,SampleA,ACGT,," +:+ nl)
          +:+ (pretty 1 +:+ "," +:+ "SampleA" +:+ "," +:+ row_end).
Proof.
  refine (proj2 (sample_id_of_several_words
    {| run_name := "run"; lane_index := 1 |}
    {| SHEET := "1,SampleA,ACGT,," +:+ nl;
       barcode_sample_dict := {[ "ACGT" := Some "SampleA" ]};
       i5 := Some None; sample_id := Some "SampleA" |}
    ("TTGG Sample B" +:+ nl) "TTGG" "Sample" "B" [] _ _) "SampleA" _).
  - vm_compute. reflexivity.
  - vm_compute. lia.
  - reflexivity.
Defined.

(** ** Library names *)

Lemma sub_non_alnum_chars in_run s :
  Forall (λ c, is_alnum c = true ∨ c = "-"%char)
    (String.list_ascii_of_string (sub_non_alnum in_run s)).
Proof.
  revert in_run. induction s as [|c s IH]; intros in_run; simpl;
    [constructor|].
  destruct (is_alnum c) eqn:Hc; [constructor; auto|].
  destruct in_run; [apply IH|]. constructor; auto.
Qed.

Lemma prefix_cons a s1 b s2 :
  String.prefix (String a s1) (String b s2)
    = if Ascii.ascii_dec a b then String.prefix s1 s2 else false.
Proof. reflexivity. Qed.

Lemma contains_cons needle c s :
  contains needle (String c s)
    = String.prefix needle (String c s) || contains needle s.
Proof. reflexivity. Qed.

Lemma sub_non_alnum_no_double in_run s :
  contains "--" (sub_non_alnum in_run s) = false
  ∧ (in_run = true → String.prefix "-" (sub_non_alnum in_run s) = false).
Proof.
  revert in_run. induction s as [|c s IH]; intros in_run;
    cbn [sub_non_alnum]; [by split|].
  destruct (is_alnum c) eqn:Hc.
  - destruct (IH false) as [Hno _].
    rewrite contains_cons, Hno, orb_false_r, !prefix_cons.
    destruct (Ascii.ascii_dec "-" c) as [<-|];
      [vm_compute in Hc; discriminate Hc|]. by split.
  - destruct in_run; [apply IH|].
    destruct (IH true) as [Hno Hpre]. split; [|done].
    rewrite contains_cons, Hno, orb_false_r, prefix_cons.
    destruct (Ascii.ascii_dec "-" "-"); [by apply Hpre|done].
Qed.

(** X17. Whatever the library name, the formatted name is made of letters,
    digits and hyphens only, and no two hyphens follow each other. *)
Theorem format_library_name_slug (library_name : string) :
  Forall (λ c, is_alnum c = true ∨ c = "-"%char)
    (String.list_ascii_of_string (format_library_name library_name))
  ∧ contains "--" (format_library_name library_name) = false.
Proof.
  unfold format_library_name. split.
  - apply sub_non_alnum_chars.
  - apply sub_non_alnum_no_double.
Qed.

Lemma before_first_absent sep s :
  contains sep s = false → before_first sep s = s.
Proof.
  induction s as [|c s IH].
  - intros _. by destruct sep.
  - rewrite contains_cons. intros [Hpre Hs]%orb_false_elim.
    cbn [before_first]. rewrite Hpre. by rewrite IH.
Qed.

Lemma before_first_rcvd name rest :
  contains "rcvd" name = false →
  before_first "rcvd" (name +:+ "rcvd" +:+ rest) = name.
Proof.
  induction name as [|c name IH]; [intros _; by destruct rest|].
  intros Hno. rewrite contains_cons in Hno.
  apply orb_false_elim in Hno as [Hpre Hno].
  change (String c name +:+ "rcvd" +:+ rest)
    with (String c (name +:+ "rcvd" +:+ rest)).
  cbn [before_first].
  assert (String.prefix "rcvd" (String c (name +:+ "rcvd" +:+ rest)) = false)
    as ->; [|by rewrite IH].
  clear IH Hno. rewrite prefix_cons in *.
  destruct (Ascii.ascii_dec "r" c); [|done].
  destruct name as [|c2 name]; [reflexivity|].
  change (String c2 name +:+ "rcvd" +:+ rest)
    with (String c2 (name +:+ "rcvd" +:+ rest)).
  rewrite prefix_cons in *.
  destruct (Ascii.ascii_dec "c" c2); [|done].
  destruct name as [|c3 name]; [reflexivity|].
  change (String c3 name +:+ "rcvd" +:+ rest)
    with (String c3 (name +:+ "rcvd" +:+ rest)).
  rewrite prefix_cons in *.
  destruct (Ascii.ascii_dec "v" c3); [|done].
  destruct name as [|c4 name]; [reflexivity|].
  change (String c4 name +:+ "rcvd" +:+ rest)
    with (String c4 (name +:+ "rcvd" +:+ rest)).
  rewrite prefix_cons in *.
  destruct (Ascii.ascii_dec "d" c4); [|done].
  by destruct name.
Qed.

(** X18. What follows the first "rcvd" of a library name is dropped together
    with it: a name without "rcvd", extended by "rcvd" and anything else,
    is formatted as the name alone. *)
Theorem format_library_name_drops_datestamp (library_name rest : string) :
  contains "rcvd" library_name = false →
  format_library_name (library_name +:+ "rcvd" +:+ rest)
    = format_library_name library_name.
Proof.
  intros Hno. unfold format_library_name.
  by rewrite before_first_rcvd, before_first_absent.
Qed.

Lemma format_library_name_drops_datestamp_witness :
  format_library_name ("MyLib " +:+ "rcvd" +:+ " 2019-01-01")
    = format_library_name "MyLib ".
Proof. by apply format_library_name_drops_datestamp. Defined.

Lemma rstrip_alnum s :
  Forall (λ c, is_alnum c = true) (String.list_ascii_of_string s) →
  rstrip s = s ∧ sub_non_alnum false s = s.
Proof.
  induction s as [|c s IH]; simpl; [done|].
  intros [Hc Hs]%Forall_cons. destruct (IH Hs) as [-> ->]. rewrite Hc.
  split; [|done]. destruct s; [|done].
  destruct (Ascii.is_space c) eqn:Hsp; [|done].
  by destruct c as [[] [] [] [] [] [] [] []].
Qed.

(** X19. A library name made of letters and digits only, without "rcvd" in
    it, is left as it is. *)
Theorem format_library_name_keeps_plain_names (library_name : string) :
  Forall (λ c, is_alnum c = true) (String.list_ascii_of_string library_name) →
  contains "rcvd" library_name = false →
  format_library_name library_name = library_name.
Proof.
  intros Halnum Hno. unfold format_library_name.
  rewrite before_first_absent by done.
  destruct (rstrip_alnum library_name Halnum) as [-> ->]. done.
Qed.

Lemma format_library_name_keeps_plain_names_witness :
  format_library_name "MyLib2" = "MyLib2".
Proof.
  apply format_library_name_keeps_plain_names.
  - repeat constructor.
  - reflexivity.
Defined.
